(** * Notary Recovery setup script ([scripts/setup.py])

    A shallow embedding of the setup script: the text canonicalisation
    applied to the username and the answers, the two wrappers around the
    external [starkli] executable, the SHA-256 fallback of the pairwise hash,
    the XOR of the master key with the combined hash, the console output and
    the two files the script writes.

    Conventions.
    - A Python [str] is a [string] whose characters are Unicode code points
      below 256; [lower], [strip], [encode] and [int16] follow Python on
      that range.
    - A Python [int] is a [Z]; [^] is [Z.lxor] (two's complement, unbounded).
    - The external executable is a function from its argument vector to what
      [subprocess.run] observes: the same invocation has the same outcome
      throughout a run.
    - The script runs in a state and exception monad: the state holds the
      lines printed and the contents written to files, and survives an
      exception.
    - [print] and [f.write] raise [UnicodeEncodeError] on a character that
      the encoding of the standard output, or of the file, does not have;
      every encoding is taken to have the code points below 128. Apart
      from that, writing to the standard output and to an opened file is
      taken to succeed.
    - [subprocess.run] raises [ValueError] on an argument with a NUL
      character; this is an outcome of the invocation like the others, and
      [refuses_nul] says that a world has it on every such argument. *)

From Stdlib Require Import ZArith List Bool Lia.
From Stdlib Require Import Ascii String HexString DecimalString DecimalZ.
Import ListNotations.

Local Open Scope string_scope.
Local Open Scope Z_scope.

(** ** Python text primitives *)

Module Py.

Definition ord (c : ascii) : Z := Z.of_N (N_of_ascii c).

Definition chr (n : Z) : ascii := ascii_of_N (Z.to_N n).

(** [str.lower] on one code point below 256: the ASCII capitals and the
    Latin-1 capitals U+00C0..U+00DE, the multiplication sign excepted. *)
Definition lower_char (c : ascii) : ascii :=
  let n := ord c in
  if ((65 <=? n) && (n <=? 90)) || ((192 <=? n) && (n <=? 222) && negb (n =? 215))
  then chr (n + 32) else c.

Fixpoint lower (s : string) : string :=
  match s with
  | EmptyString => EmptyString
  | String c s' => String (lower_char c) (lower s')
  end.

(** [str.isspace] on one code point below 256. *)
Definition isspace (c : ascii) : bool :=
  let n := ord c in
  ((9 <=? n) && (n <=? 13)) || ((28 <=? n) && (n <=? 32)) || (n =? 133) || (n =? 160).

Fixpoint lstrip (s : string) : string :=
  match s with
  | EmptyString => EmptyString
  | String c s' => if isspace c then lstrip s' else s
  end.

(** Trailing white space is dropped from the right: a character stays when
    it is not white space or when something stays after it. *)
Fixpoint rstrip (s : string) : string :=
  match s with
  | EmptyString => EmptyString
  | String c s' =>
      match rstrip s' with
      | EmptyString => if isspace c then EmptyString else String c EmptyString
      | r => String c r
      end
  end.

Definition strip (s : string) : string := rstrip (lstrip s).

(** [str(n)] for an [int]: decimal digits, with a minus sign when negative. *)
Definition str (n : Z) : string := NilEmpty.string_of_int (Z.to_int n).

(** [hex(n)]. *)
Definition hex (n : Z) : string := HexString.of_Z n.

(** [s.encode()]: UTF-8, one byte below U+0080 and two bytes from there up
    to U+00FF. *)
Fixpoint encode (s : string) : list Z :=
  match s with
  | EmptyString => []
  | String c s' =>
      let n := ord c in
      if n <? 128 then n :: encode s'
      else Z.lor 192 (Z.shiftr n 6) :: Z.lor 128 (Z.land n 63) :: encode s'
  end.

(** [int.from_bytes(b, 'big')]. *)
Definition from_bytes_big (b : list Z) : Z :=
  fold_left (fun acc x => acc * 256 + x) b 0.

(** *** [int(s, 16)] *)

(** White space as [int] sees it: the C-locale blanks, and the non-ASCII
    white space that is first rewritten to a blank. *)
Definition int_isspace (c : ascii) : bool :=
  let n := ord c in
  ((9 <=? n) && (n <=? 13)) || (n =? 32) || (n =? 133) || (n =? 160).

Fixpoint int_lstrip (s : string) : string :=
  match s with
  | EmptyString => EmptyString
  | String c s' => if int_isspace c then int_lstrip s' else s
  end.

Fixpoint int_rstrip (s : string) : string :=
  match s with
  | EmptyString => EmptyString
  | String c s' =>
      match int_rstrip s' with
      | EmptyString => if int_isspace c then EmptyString else String c EmptyString
      | r => String c r
      end
  end.

Definition hex_digit (c : ascii) : option Z :=
  let n := ord c in
  if (48 <=? n) && (n <=? 57) then Some (n - 48)
  else if (97 <=? n) && (n <=? 102) then Some (n - 87)
  else if (65 <=? n) && (n <=? 70) then Some (n - 55)
  else None.

(** Digits with single underscores between them; [after_digit] tells whether
    the previous character was a digit, so that an underscore may follow. *)
Fixpoint hex_digits (s : string) (acc : Z) (after_digit : bool) : option Z :=
  match s with
  | EmptyString => if after_digit then Some acc else None
  | String c s' =>
      if Ascii.eqb c "_" then
        if after_digit then hex_digits s' acc false else None
      else
        match hex_digit c with
        | Some d => hex_digits s' (16 * acc + d) true
        | None => None
        end
  end.

(** The magnitude: an optional [0x] or [0X], after which one underscore is
    allowed, then the digits. *)
Definition hex_magnitude (s : string) : option Z :=
  match s with
  | String "0" (String x s') =>
      if Ascii.eqb x "x" || Ascii.eqb x "X" then
        match s' with
        | String "_" s'' => hex_digits s'' 0 false
        | _ => hex_digits s' 0 false
        end
      else hex_digits s 0 false
  | _ => hex_digits s 0 false
  end.

(** [int(s, 16)]; [None] stands for [ValueError]. *)
Definition int16 (s : string) : option Z :=
  match int_rstrip (int_lstrip s) with
  | String "+" s' => hex_magnitude s'
  | String "-" s' => option_map Z.opp (hex_magnitude s')
  | s' => hex_magnitude s'
  end.

End Py.

(** ** SHA-256 ([hashlib.sha256]) *)

Module SHA256.

Definition w32 (x : Z) : Z := Z.land x 4294967295.

Definition add32 (x y : Z) : Z := w32 (x + y).

Definition rotr (n x : Z) : Z :=
  w32 (Z.lor (Z.shiftr x n) (Z.shiftl x (32 - n))).

Definition Ch (x y z : Z) : Z :=
  Z.lxor (Z.land x y) (Z.land (Z.lxor x 4294967295) z).

Definition Maj (x y z : Z) : Z :=
  Z.lxor (Z.lxor (Z.land x y) (Z.land x z)) (Z.land y z).

Definition Sigma0 (x : Z) : Z := Z.lxor (Z.lxor (rotr 2 x) (rotr 13 x)) (rotr 22 x).
Definition Sigma1 (x : Z) : Z := Z.lxor (Z.lxor (rotr 6 x) (rotr 11 x)) (rotr 25 x).
Definition sigma0 (x : Z) : Z := Z.lxor (Z.lxor (rotr 7 x) (rotr 18 x)) (Z.shiftr x 3).
Definition sigma1 (x : Z) : Z := Z.lxor (Z.lxor (rotr 17 x) (rotr 19 x)) (Z.shiftr x 10).

(** The round constants and the initial state are the first 32 bits of the
    fractional parts of the cube roots of the first 64 primes, and of the
    square roots of the first 8. *)
Definition is_prime (n : Z) : bool :=
  (1 <? n) &&
  forallb (fun d => negb (n mod (Z.of_nat d) =? 0)) (seq 2 (Z.to_nat n - 2)).

Definition primes : list Z :=
  filter is_prime (map Z.of_nat (seq 2 310)).

(** The integer cube root, one bit at a time from bit [bits - 1] down. *)
Fixpoint cube_root (bits : nat) (n r : Z) : Z :=
  match bits with
  | O => r
  | S b =>
      let r' := r + 2 ^ Z.of_nat b in
      if r' * r' * r' <=? n then cube_root b n r' else cube_root b n r
  end.

Definition K : list Z :=
  Eval vm_compute in
    map (fun p => w32 (cube_root 36 (p * 2 ^ 96) 0)) (firstn 64 primes).

Definition H0 : list Z :=
  Eval vm_compute in
    map (fun p => w32 (Z.sqrt (p * 2 ^ 64))) (firstn 8 primes).

(** Big-endian bytes of [x], [n] of them. *)
Fixpoint be_bytes (n : nat) (x : Z) : list Z :=
  match n with
  | O => []
  | S n' => Z.land (Z.shiftr x (8 * Z.of_nat n')) 255 :: be_bytes n' x
  end.

(** The message, the byte 0x80, zero bytes up to 56 modulo 64, and the bit
    length on eight bytes. *)
Definition pad (msg : list Z) : list Z :=
  let len := Z.of_nat (List.length msg) in
  let zeros := Z.to_nat ((55 - len) mod 64) in
  (msg ++ 128 :: repeat 0 zeros ++ be_bytes 8 (8 * len))%list.

(** Consecutive big-endian 32-bit words. *)
Fixpoint to_words (fuel : nat) (b : list Z) : list Z :=
  match fuel, b with
  | S fuel', b0 :: b1 :: b2 :: b3 :: rest =>
      (((b0 * 256 + b1) * 256 + b2) * 256 + b3) :: to_words fuel' rest
  | _, _ => []
  end.

(** The message schedule is kept newest first: [w] holds W(t-1), W(t-2), ... *)
Definition next_w (w : list Z) : Z :=
  add32 (add32 (sigma1 (nth 1 w 0)) (nth 6 w 0))
        (add32 (sigma0 (nth 14 w 0)) (nth 15 w 0)).

Fixpoint extend (n : nat) (w : list Z) : list Z :=
  match n with
  | O => w
  | S n' => extend n' (next_w w :: w)
  end.

Definition schedule (block : list Z) : list Z :=
  rev (extend 48 (rev block)).

Definition round (st : list Z) (kw : Z * Z) : list Z :=
  match st with
  | [a; b; c; d; e; f; g; h] =>
      let t1 := add32 (add32 (add32 (add32 h (Sigma1 e)) (Ch e f g)) (fst kw)) (snd kw) in
      let t2 := add32 (Sigma0 a) (Maj a b c) in
      [add32 t1 t2; a; b; c; add32 d t1; e; f; g]
  | _ => st
  end.

Fixpoint add_state (x y : list Z) : list Z :=
  match x, y with
  | a :: x', b :: y' => add32 a b :: add_state x' y'
  | _, _ => []
  end.

Definition compress (st block : list Z) : list Z :=
  add_state st (fold_left round (combine K (schedule block)) st).

Fixpoint blocks (fuel : nat) (st words : list Z) : list Z :=
  match fuel with
  | O => st
  | S fuel' =>
      match words with
      | [] => st
      | _ => blocks fuel' (compress st (firstn 16 words)) (skipn 16 words)
      end
  end.

(** [hashlib.sha256(msg).digest()], as 32 bytes. *)
Definition digest (msg : list Z) : list Z :=
  let p := pad msg in
  let ws := to_words (List.length p) p in
  flat_map (be_bytes 4) (blocks (List.length ws) H0 ws).

End SHA256.

(** ** What the script observes and changes *)

(** What [subprocess.run] observes of one invocation:
    - the process ran, and its output was decoded as text: a return code and
      the standard output;
    - the process ran, and its output is no text in the encoding of the
      locale: [UnicodeDecodeError], whatever the return code;
    - the process could not be started (the executable is missing, say):
      [OSError];
    - an argument holds a NUL character, and nothing is started:
      [ValueError]. *)
Inductive run_outcome : Type :=
| Exited (returncode : Z) (stdout : string)
| Undecodable
| LaunchFailed
| NulArgument.

(** The world around the script: the executables on the path, as a function
    of the argument vector; whether a path can be opened for writing; and
    the code points that the encoding of the standard output, and the
    encoding of the files, have. *)
Record world : Type := {
  run : list string -> run_outcome;
  can_open : string -> bool;
  stdout_encodes : Z -> bool;
  file_encodes : Z -> bool
}.

Inductive exn : Type :=
| SystemExit (code : Z)
| OSError
| ValueError
| IndexError
| UnicodeDecodeError
| UnicodeEncodeError.

Inductive result (A : Type) : Type :=
| Ok (a : A)
| Raise (e : exn).

Arguments Ok {A} a.
Arguments Raise {A} e.

(** One [print] call. The two marks of the script lie outside the code
    points of [string], so a line that carries one is kept in three parts
    ([ok] for the check mark, [negb ok] for the cross); the text of a
    [CalledProcessError] is kept as the data it is built from. *)
Inductive line : Type :=
| Text (s : string)
| Marked (before : string) (ok : bool) (after : string)
| ErrorRunning (argv : list string) (returncode : Z).

(** The files hold the contents written, in the order written; a file that
    was opened but whose [write] raised is left empty and is not listed. *)
Record state : Type := {
  console : list line;
  files : list (string * string)
}.

(** Whether an encoding has a character, and every character of a text. *)
Definition can_encode (enc : Z -> bool) (c : ascii) : bool :=
  (Py.ord c <? 128) || enc (Py.ord c).

Fixpoint encodable (enc : Z -> bool) (s : string) : bool :=
  match s with
  | EmptyString => true
  | String c s' => can_encode enc c && encodable enc s'
  end.

(** The code points of the check mark and of the cross. *)
Definition mark (ok : bool) : Z := if ok then 9989 else 10060.

(** The characters that [repr] shows as they are; the others are escaped in
    ASCII. *)
Definition repr_keeps (c : ascii) : bool :=
  let n := Py.ord c in
  ((32 <=? n) && (n <=? 126)) || ((161 <=? n) && negb (n =? 173)).

Fixpoint repr_encodable (enc : Z -> bool) (s : string) : bool :=
  match s with
  | EmptyString => true
  | String c s' => (negb (repr_keeps c) || can_encode enc c) && repr_encodable enc s'
  end.

(** Whether a line can be encoded; the text of a [CalledProcessError] shows
    the [repr] of the argument vector. *)
Definition printable (enc : Z -> bool) (l : line) : bool :=
  match l with
  | Text s => encodable enc s
  | Marked before ok after => encodable enc before && enc (mark ok) && encodable enc after
  | ErrorRunning argv _ => forallb (repr_encodable enc) argv
  end.

Definition initial : state := {| console := []; files := [] |}.

(** ** A state and exception monad for the script *)

Definition M (A : Type) : Type := state -> result A * state.

Definition ret {A} (a : A) : M A := fun st => (Ok a, st).

Definition raise {A} (e : exn) : M A := fun st => (Raise e, st).

Definition bind {A B} (m : M A) (f : A -> M B) : M B :=
  fun st =>
    match m st with
    | (Ok a, st') => f a st'
    | (Raise e, st') => (Raise e, st')
    end.

Notation "x <- m ;; k" := (bind m (fun x => k))
  (at level 61, m at next level, right associativity).
Notation "m ;; k" := (bind m (fun _ => k))
  (at level 61, right associativity).

Definition lift {A} (r : result A) : M A := fun st => (r, st).

(** [for i, x in enumerate(xs): body], counting from [i]. *)
Fixpoint for_enumerate {A} (i : nat) (xs : list A) (body : nat -> A -> M unit) : M unit :=
  match xs with
  | [] => ret tt
  | x :: xs' => body i x ;; for_enumerate (S i) xs' body
  end.

(** [xs[i]]. *)
Definition index {A} (xs : list A) (i : nat) : M A :=
  match nth_error xs i with
  | Some x => ret x
  | None => raise IndexError
  end.

Definition nl : string := String (ascii_of_nat 10) EmptyString.
Definition dq : string := String (ascii_of_nat 34) EmptyString.

(** [s * n]. *)
Fixpoint times (s : string) (n : nat) : string :=
  match n with
  | O => EmptyString
  | S n' => s ++ times s n'
  end.

(** ** The script *)

Record config : Type := {
  USERNAME : string;
  ANSWERS : list string;
  SONG_DURATION : Z;
  MASTER_KEY : string
}.

(** The configuration block of the script. *)
Definition user_config : config := {|
  USERNAME := "alice";
  ANSWERS := ["Denis Guedj"; "2012"; "Finney"];
  SONG_DURATION := 218;
  MASTER_KEY := "0x1234567890abcdef"
|}.

(** The canonical text of a username or an answer: [text.lower().strip()]. *)
Definition normalize (text : string) : string := Py.strip (Py.lower text).

(** [master_key_int ^ combined_int]. *)
Definition encrypt (master_key_int combined_int : Z) : Z :=
  Z.lxor master_key_int combined_int.

(** Modelled from the spec: the decryption of the recovery contract, which is
    not part of the script; the spec gives it as the identical XOR. *)
Definition decrypt (encrypted_key combined_int : Z) : Z :=
  Z.lxor encrypted_key combined_int.

(** The fallback of [starkli_pedersen]: the first 31 bytes of the SHA-256 of
    the two argument texts put side by side, as a hexadecimal literal. *)
Definition sha256_fallback (a b : string) : string :=
  let combined := Py.encode (a ++ b) in
  let h := SHA256.digest combined in
  let felt := Py.from_bytes_big (firstn 31 h) in
  Py.hex felt.

Section Script.

Variable w : world.

Definition print (l : line) : M unit :=
  fun st =>
    if printable (stdout_encodes w) l
    then (Ok tt, {| console := (console st ++ [l])%list; files := files st |})
    else (Raise UnicodeEncodeError, st).

(** [subprocess.run(argv, capture_output=True, text=True, check=True)] *)
Definition to_cairo_string_argv (s : string) : list string :=
  ["starkli"; "to-cairo-string"; s].

Definition pedersen_argv (a b : string) : list string :=
  ["starkli"; "parse"; "pedersen(" ++ a ++ ", " ++ b ++ ")"].

Definition starkli_to_felt (s : string) : M string :=
  match run w (to_cairo_string_argv s) with
  | Exited returncode stdout =>
      if returncode =? 0 then ret (Py.strip stdout)
      else print (ErrorRunning (to_cairo_string_argv s) returncode) ;;
           raise (SystemExit 1)
  | Undecodable => raise UnicodeDecodeError
  | LaunchFailed => raise OSError
  | NulArgument => raise ValueError
  end.

Definition starkli_pedersen (a b : string) : result string :=
  match run w (pedersen_argv a b) with
  | Exited returncode stdout =>
      if returncode =? 0 then Ok (Py.strip stdout)
      else Ok (sha256_fallback a b)
  | Undecodable => Raise UnicodeDecodeError
  | LaunchFailed => Raise OSError
  | NulArgument => Raise ValueError
  end.

(** [int(s, 16)] as a step of the script. *)
Definition int_base16 (s : string) : M Z :=
  match Py.int16 s with
  | Some n => ret n
  | None => raise ValueError
  end.

(** [with open(path, 'w') as f: f.write(content)] *)
Definition write_file (path content : string) : M unit :=
  fun st =>
    if can_open w path then
      if encodable (file_encodes w) content
      then (Ok tt, {| console := console st; files := (files st ++ [(path, content)])%list |})
      else (Raise UnicodeEncodeError, st)
    else (Raise OSError, st).

(** The felt of a text and its hash with the slot number as salt: what the
    script computes for an answer, and again for a test answer. *)
Definition salted_hash (i : nat) (text : string) : M (string * string) :=
  felt <- starkli_to_felt text ;;
  let salt := Py.str (Z.of_nat i) in
  h <- lift (starkli_pedersen felt salt) ;;
  ret (felt, h).

(** The commitment of an answer at slot [i]: the answer is lowercased and
    stripped first. *)
Definition answer_hash (i : nat) (answer : string) : M (string * string) :=
  salted_hash i (normalize answer).

(** The loop over the answers; [answer_felts] and [answer_hashes] grow at the
    end. *)
Fixpoint answers_loop (i : nat) (answers : list string)
    (answer_felts answer_hashes : list string) : M (list string * list string) :=
  match answers with
  | [] => ret (answer_felts, answer_hashes)
  | answer :: rest =>
      fh <- answer_hash i answer ;;
      let answer_felts := (answer_felts ++ [fst fh])%list in
      let answer_hashes := (answer_hashes ++ [snd fh])%list in
      print (Text ("  " ++ Py.str (Z.of_nat i + 1) ++ ". '" ++ answer ++ "'")) ;;
      print (Text ("     Felt: " ++ fst fh)) ;;
      print (Text ("     Hash (pedersen with salt " ++ Py.str (Z.of_nat i) ++ "): " ++ snd fh)) ;;
      answers_loop (S i) rest answer_felts answer_hashes
  end.

(** [combined = pedersen(pedersen(h1, h2), h3)] *)
Definition combined_hash (answer_hashes : list string) : M string :=
  h0 <- index answer_hashes 0 ;;
  h1 <- index answer_hashes 1 ;;
  temp <- lift (starkli_pedersen h0 h1) ;;
  h2 <- index answer_hashes 2 ;;
  lift (starkli_pedersen temp h2).

(** What the hash computation leaves for the rest of the script. *)
Record hashes : Type := {
  username_hash : string;
  answer_felts : list string;
  answer_hashes : list string;
  combined : string;
  encrypted_key : string
}.

Definition banner (title : string) : M unit :=
  print (Text (nl ++ times "=" 60)) ;;
  print (Text title) ;;
  print (Text (times "=" 60)).

(** From the configuration block to the encrypted key. *)
Definition calculate_hashes (c : config) : M hashes :=
  _ <- int_base16 (MASTER_KEY c) ;;
  print (Text (times "=" 60)) ;;
  print (Text "NOTARY RECOVERY SETUP") ;;
  print (Text (times "=" 60)) ;;
  print (Text (nl ++ "Calculating username hash...")) ;;
  username_hash <- starkli_to_felt (normalize (USERNAME c)) ;;
  print (Text ("Username: " ++ USERNAME c)) ;;
  print (Text ("Username hash: " ++ username_hash)) ;;
  print (Text (nl ++ "Calculating answer hashes...")) ;;
  fhs <- answers_loop 0 (ANSWERS c) [] [] ;;
  print (Text (nl ++ "Calculating encrypted key...")) ;;
  combined_hash <- combined_hash (snd fhs) ;;
  master_key_int <- int_base16 (MASTER_KEY c) ;;
  combined_int <- int_base16 combined_hash ;;
  let encrypted_key := Py.hex (encrypt master_key_int combined_int) in
  print (Text ("Master Key: " ++ MASTER_KEY c)) ;;
  print (Text ("Combined Hash: " ++ combined_hash)) ;;
  print (Text ("Encrypted Key: " ++ encrypted_key)) ;;
  ret {| username_hash := username_hash;
         answer_felts := fst fhs;
         answer_hashes := snd fhs;
         combined := combined_hash;
         encrypted_key := encrypted_key |}.

Definition deploy_cmd (c : config) (username_hash h0 h1 h2 encrypted_key : string) : string :=
  "starkli deploy <CLASS_HASH> \" ++ nl ++
  "  " ++ username_hash ++ " \" ++ nl ++
  "  " ++ h0 ++ " \" ++ nl ++
  "  " ++ h1 ++ " \" ++ nl ++
  "  " ++ h2 ++ " \" ++ nl ++
  "  " ++ encrypted_key ++ " \" ++ nl ++
  "  u64:" ++ Py.str (SONG_DURATION c) ++ " \" ++ nl ++
  "  --network sepolia".

Definition deploy_commands (c : config) (h : hashes) : M unit :=
  banner "DEPLOY COMMANDS" ;;
  print (Text (nl ++ "1. Declare contract:")) ;;
  print (Text "scarb build") ;;
  print (Text "starkli declare target/dev/notary_recovery_NotaryRecovery.contract_class.json \") ;;
  print (Text "  --network sepolia") ;;
  print (Text (nl ++ "2. Deploy contract (sostituisci <CLASS_HASH> con l'output sopra):")) ;;
  h0 <- index (answer_hashes h) 0 ;;
  h1 <- index (answer_hashes h) 1 ;;
  h2 <- index (answer_hashes h) 2 ;;
  print (Text (deploy_cmd c (username_hash h) h0 h1 h2 (encrypted_key h))).

Definition env_content (username : string) (username_hash : string)
    (song_duration : Z) (a0 a1 a2 : string) : string :=
  "// Configuration file for frontend" ++ nl ++
  "// Copy this to frontend/config.js" ++ nl ++
  nl ++
  "const CONFIG = {" ++ nl ++
  "  CONTRACT_ADDRESS: '0x...', // Update after deploy" ++ nl ++
  "  USERNAME: '" ++ username ++ "'," ++ nl ++
  "  USERNAME_HASH: '" ++ username_hash ++ "'," ++ nl ++
  "  SONG_DURATION: " ++ Py.str song_duration ++ "," ++ nl ++
  "  EXPECTED_ANSWERS: [" ++ nl ++
  "    '" ++ a0 ++ "'," ++ nl ++
  "    '" ++ a1 ++ "'," ++ nl ++
  "    '" ++ a2 ++ "'" ++ nl ++
  "  ]," ++ nl ++
  "  // For testing only - remove in production!" ++ nl ++
  "};" ++ nl ++
  nl ++
  "export default CONFIG;" ++ nl.

Definition frontend_configuration (c : config) (h : hashes) : M unit :=
  banner "FRONTEND CONFIGURATION" ;;
  a0 <- index (ANSWERS c) 0 ;;
  a1 <- index (ANSWERS c) 1 ;;
  a2 <- index (ANSWERS c) 2 ;;
  let content := env_content (USERNAME c) (username_hash h) (SONG_DURATION c) a0 a1 a2 in
  print (Text content) ;;
  write_file "frontend/config.js" content ;;
  print (Marked nl true " Config saved to frontend/config.js").

Definition test_answers : list string := ["denis"; "2012"; "finney"].

(** The body of the self-test loop. *)
Definition test_answer (h : hashes) (i : nat) (ans : string) : M unit :=
  fh <- salted_hash i ans ;;
  let test_hash := snd fh in
  stored <- index (answer_hashes h) i ;;
  let matches := String.eqb test_hash stored in
  print (Marked "  " matches (" " ++ ans ++ ": " ++ test_hash)).

Definition test_hash_verification (h : hashes) : M unit :=
  banner "TEST: Verify hash computation" ;;
  print (Text (nl ++ "Test with lowercase answers:")) ;;
  for_enumerate 0 test_answers (test_answer h).

Definition recovery_test (username_hash h0 h1 h2 : string) : string :=
  "#!/bin/bash" ++ nl ++
  "# Test recovery locally (dopo deploy)" ++ nl ++
  nl ++
  "CONTRACT_ADDRESS=" ++ dq ++ "<YOUR_CONTRACT_ADDRESS>" ++ dq ++ nl ++
  nl ++
  "echo " ++ dq ++ "Getting remaining attempts..." ++ dq ++ nl ++
  "starkli call $CONTRACT_ADDRESS get_remaining_attempts --network sepolia" ++ nl ++
  nl ++
  "echo " ++ dq ++ "Starting recovery session..." ++ dq ++ nl ++
  "starkli invoke $CONTRACT_ADDRESS start_recovery " ++ username_hash ++ " --network sepolia" ++ nl ++
  nl ++
  "echo " ++ dq ++ "Waiting for confirmation... (press ENTER when ready)" ++ dq ++ nl ++
  "read" ++ nl ++
  nl ++
  "echo " ++ dq ++ "Attempting recovery..." ++ dq ++ nl ++
  "starkli invoke $CONTRACT_ADDRESS attempt_recovery \" ++ nl ++
  "  " ++ username_hash ++ " \" ++ nl ++
  "  " ++ h0 ++ " \" ++ nl ++
  "  " ++ h1 ++ " \" ++ nl ++
  "  " ++ h2 ++ " \" ++ nl ++
  "  --network sepolia" ++ nl ++
  nl ++
  "echo " ++ dq ++ "Done! Check if key was recovered." ++ dq ++ nl.

Definition next_steps : string :=
  nl ++
  "1. Deploy contract with commands above" ++ nl ++
  "2. Update frontend/config.js with CONTRACT_ADDRESS" ++ nl ++
  "3. Put pyramids.mp3 in frontend/" ++ nl ++
  "4. Test locally:" ++ nl ++
  "   cd frontend && python3 -m http.server 8000" ++ nl ++
  "5. Open http://localhost:8000" ++ nl ++
  nl ++
  "For production:" ++ nl ++
  "- Remove test data from config.js" ++ nl ++
  "- Use proper key encryption" ++ nl ++
  "- Add rate limiting" ++ nl ++
  "- Deploy frontend to IPFS or traditional hosting" ++ nl.

Definition recovery_test_script (h : hashes) : M unit :=
  h0 <- index (answer_hashes h) 0 ;;
  h1 <- index (answer_hashes h) 1 ;;
  h2 <- index (answer_hashes h) 2 ;;
  write_file "scripts/test_recovery.sh" (recovery_test (username_hash h) h0 h1 h2) ;;
  print (Marked nl true " Test script saved to scripts/test_recovery.sh") ;;
  banner "NEXT STEPS" ;;
  print (Text next_steps).

(** The whole script, top to bottom. *)
Definition setup (c : config) : M unit :=
  h <- calculate_hashes c ;;
  deploy_commands c h ;;
  frontend_configuration c h ;;
  test_hash_verification h ;;
  recovery_test_script h.

End Script.

(** The content last written to [path], if any. *)
Definition written (st : state) (path : string) : option string :=
  match find (fun f => String.eqb (fst f) path) (rev (files st)) with
  | Some f => Some (snd f)
  | None => None
  end.

(** [needle in text]. *)
Fixpoint contains (text needle : string) : bool :=
  String.prefix needle text ||
  match text with
  | EmptyString => false
  | String _ text' => contains text' needle
  end.

(** ** Particular worlds *)

(** The short-string felt of an ASCII text of at most 31 characters, as
    [starkli to-cairo-string] prints it; a non-zero status otherwise. *)
Definition to_cairo_string (s : string) : run_outcome :=
  let bytes := Py.encode s in
  if forallb (fun b => b <? 128) bytes && (Nat.leb (List.length bytes) 31)
  then Exited 0 (Py.hex (Py.from_bytes_big bytes) ++ nl)
  else Exited 1 "".

(** A world whose [starkli] converts short strings and rejects the [parse]
    subcommand, so that every pairwise hash is the fallback. *)
Definition world_without_pedersen : world := {|
  run := fun argv =>
    match argv with
    | ["starkli"; "to-cairo-string"; s] => to_cairo_string s
    | "starkli" :: _ => Exited 1 ""
    | _ => LaunchFailed
    end;
  can_open := fun _ => true;
  stdout_encodes := fun _ => true;
  file_encodes := fun _ => true
|}.

(** A world whose [starkli] answers a hash query with the query itself:
    hashes are symbolic terms. *)
Definition symbolic_world : world := {|
  run := fun argv =>
    match argv with
    | ["starkli"; "to-cairo-string"; s] => to_cairo_string s
    | ["starkli"; "parse"; expression] => Exited 0 expression
    | _ => LaunchFailed
    end;
  can_open := fun _ => true;
  stdout_encodes := fun _ => true;
  file_encodes := fun _ => true
|}.

(** A world without [starkli]. *)
Definition world_without_starkli : world := {|
  run := fun _ => LaunchFailed;
  can_open := fun _ => true;
  stdout_encodes := fun _ => true;
  file_encodes := fun _ => true
|}.

(** ** The combination of the commitments, in the words of the spec *)

(** [hash(hash(c0, c1), c2)], for a hash that may fail. *)
Definition fold (hash : string -> string -> result string) (c0 c1 c2 : string) : result string :=
  match hash c0 c1 with
  | Ok t => hash t c2
  | Raise e => Raise e
  end.

(** The configuration with another master key. *)
Definition with_master_key (c : config) (k : string) : config :=
  {| USERNAME := USERNAME c; ANSWERS := ANSWERS c;
     SONG_DURATION := SONG_DURATION c; MASTER_KEY := k |}.

(** The verdicts of the self-test, in the order printed. *)
Fixpoint verdicts (ls : list line) : list bool :=
  match ls with
  | [] => []
  | Marked before ok _ :: ls' =>
      if String.eqb before "  " then ok :: verdicts ls' else verdicts ls'
  | _ :: ls' => verdicts ls'
  end.



(** A text with a NUL character. *)
Fixpoint has_nul (s : string) : bool :=
  match s with
  | EmptyString => false
  | String c s' => (Py.ord c =? 0) || has_nul s'
  end.

(** Every hash query on texts without NUL ends with a non-zero status. *)
Definition pedersen_fails_on_text (w : world) : Prop :=
  forall a b, has_nul a = false -> has_nul b = false ->
    exists returncode stdout,
      run w (pedersen_argv a b) = Exited returncode stdout /\ returncode <> 0.

(** The standard output and the files have every character, as with
    UTF-8. *)
Definition encodes_everything (w : world) : Prop :=
  forall cp, stdout_encodes w cp = true /\ file_encodes w cp = true.

(** [subprocess.run] refuses an argument with a NUL character before it
    starts anything: the worlds of an interpreter have this property. *)
Definition refuses_nul (w : world) : Prop :=
  forall argv, existsb has_nul argv = true -> run w argv = NulArgument.

(** The world without the hash query, with the refusal of NUL. *)
Definition world_refusing_nul : world := {|
  run := fun argv =>
    if existsb has_nul argv then NulArgument else run world_without_pedersen argv;
  can_open := fun _ => true;
  stdout_encodes := fun _ => true;
  file_encodes := fun _ => true
|}.


(** Every hash query ends with a non-zero status. *)
Definition pedersen_fails (w : world) : Prop :=
  forall a b, exists returncode stdout,
    run w (pedersen_argv a b) = Exited returncode stdout /\ returncode <> 0.

(** The felt conversion of the canonical text ends with a non-zero status. *)
Definition felt_fails (w : world) (text : string) : Prop :=
  exists returncode stdout,
    run w (to_cairo_string_argv (normalize text)) = Exited returncode stdout /\
    returncode <> 0.

(** [committed w i answers felts hashes]: the felts and the hashes are those
    of the answers at slots [i], [i+1], ...: each felt is the stripped output
    of the conversion of the canonical answer, each hash the pairwise hash of
    the felt with the slot number. *)
Inductive committed (w : world) : nat -> list string -> list string -> list string -> Prop :=
| committed_nil i : committed w i [] [] []
| committed_cons i answer rest stdout h felts hs :
    run w (to_cairo_string_argv (normalize answer)) = Exited 0 stdout ->
    starkli_pedersen w (Py.strip stdout) (Py.str (Z.of_nat i)) = Ok h ->
    committed w (S i) rest felts hs ->
    committed w i (answer :: rest) (Py.strip stdout :: felts) (h :: hs).

(** A step of the script that leaves the files alone. *)
Definition keeps_files {A} (m : M A) : Prop :=
  forall st, files (snd (m st)) = files st.

(** A step of the script that prints no verdict. *)
Definition quiet {A} (m : M A) : Prop :=
  forall st, exists ls,
    console (snd (m st)) = (console st ++ ls)%list /\ verdicts ls = [].

(** A configuration whose third answer is too long for a short string. *)
Definition long_answer_config : config := {|
  USERNAME := "alice";
  ANSWERS := ["Denis Guedj"; "2012"; "the name of the street where I grew up"];
  SONG_DURATION := 218;
  MASTER_KEY := "0x1234567890abcdef"
|}.

(** A text of white space only. *)
Fixpoint blank (s : string) : bool :=
  match s with
  | EmptyString => true
  | String c s' => Py.isspace c && blank s'
  end.

(** A world like [world_without_pedersen] whose [starkli] also rejects the
    conversion of the first test answer. *)
Definition world_rejecting_denis : world := {|
  run := fun argv =>
    match argv with
    | ["starkli"; "to-cairo-string"; s] =>
        if String.eqb s "denis" then Exited 1 "" else to_cairo_string s
    | "starkli" :: _ => Exited 1 ""
    | _ => LaunchFailed
    end;
  can_open := fun _ => true;
  stdout_encodes := fun _ => true;
  file_encodes := fun _ => true
|}.

(** Other configuration blocks: a fourth answer and another username; the
    answers of the self-test in another spelling; two answers only; a master
    key that is no number. *)
Definition four_answers_config : config := {|
  USERNAME := "bob";
  ANSWERS := ["Denis Guedj"; "2012"; "Finney"; "Pyramids"];
  SONG_DURATION := 218;
  MASTER_KEY := "0x1234567890abcdef"
|}.

Definition matching_config : config := {|
  USERNAME := "alice";
  ANSWERS := ["Denis"; " 2012"; "FINNEY"];
  SONG_DURATION := 218;
  MASTER_KEY := "0x1234567890abcdef"
|}.

Definition two_answers_config : config := {|
  USERNAME := "alice";
  ANSWERS := ["Denis Guedj"; "2012"];
  SONG_DURATION := 218;
  MASTER_KEY := "0x1234567890abcdef"
|}.

Definition bad_key_config : config := {|
  USERNAME := "alice";
  ANSWERS := ["Denis Guedj"; "2012"; "Finney"];
  SONG_DURATION := 218;
  MASTER_KEY := "my master key"
|}.

(** Known answers of the hash standard, on the empty message, on [abc] and on
    a message that takes two blocks. *)
Example sha256_empty :
  Py.hex (Py.from_bytes_big (SHA256.digest (Py.encode ""))) =
  "0xe3b0c44298fc1c149afbf4c8996fb92427ae41e4649b934ca495991b7852b855".
Proof. vm_compute. reflexivity. Qed.

Example sha256_abc :
  Py.hex (Py.from_bytes_big (SHA256.digest (Py.encode "abc"))) =
  "0xba7816bf8f01cfea414140de5dae2223b00361a396177a9cb410ff61f20015ad".
Proof. vm_compute. reflexivity. Qed.

Example sha256_two_blocks :
  Py.hex (Py.from_bytes_big (SHA256.digest (Py.encode
    "abcdbcdecdefdefgefghfghighijhijkijkljklmklmnlmnomnopnopq"))) =
  "0x248d6a61d20638b8e5c026930c3e6039a33ce45964ff2167f6ecedd419db06c1".
Proof. vm_compute. reflexivity. Qed.

(** ** The monad *)

Lemma bind_ok {A B} (m : M A) (f : A -> M B) st b st' :
  bind m f st = (Ok b, st') ->
  exists a st1, m st = (Ok a, st1) /\ f a st1 = (Ok b, st').
Proof.
  unfold bind. destruct (m st) as [[a | e] st1]; intro H.
  - exists a, st1. split; [reflexivity | exact H].
  - discriminate H.
Qed.

Lemma bind_raise {A B} (m : M A) (f : A -> M B) st e st' :
  m st = (Raise e, st') -> bind m f st = (Raise e, st').
Proof. unfold bind. intros ->. reflexivity. Qed.

Lemma run_cases {A} (m : M A) st :
  (exists a st', m st = (Ok a, st')) \/ (exists e st', m st = (Raise e, st')).
Proof.
  destruct (m st) as [[a | e] st']; [left | right]; eauto.
Qed.

(** ** Encryption *)

(** A text that [int] reads as hexadecimal digits holds no white space, so
    stripping it changes nothing. *)
Lemma hex_digit_not_space c d : Py.hex_digit c = Some d -> Py.int_isspace c = false.
Proof. destruct c as [[] [] [] [] [] [] [] []]; first [discriminate | reflexivity]. Qed.

Lemma int_rstrip_cons c s :
  Py.int_isspace c = false -> Py.int_rstrip s = s ->
  Py.int_rstrip (String c s) = String c s.
Proof.
  intros Hc Hs. simpl. rewrite Hs. destruct s; [rewrite Hc |]; reflexivity.
Qed.

Lemma hex_digits_rstrip s :
  forall acc b v, Py.hex_digits s acc b = Some v -> Py.int_rstrip s = s.
Proof.
  induction s as [| c s IH]; intros acc b v H; [reflexivity |].
  simpl in H. destruct (Ascii.eqb_spec c "_") as [-> | Hc].
  - destruct b; [| discriminate].
    apply int_rstrip_cons; [reflexivity | exact (IH _ _ _ H)].
  - destruct (Py.hex_digit c) as [d |] eqn:Ed; [| discriminate].
    apply int_rstrip_cons; [exact (hex_digit_not_space _ _ Ed) | exact (IH _ _ _ H)].
Qed.

(** The digits that [hex] prints are read back by [int]: reading the digits
    of [p] after the digits of [base] gives the digits of both. *)
Lemma hex_digits_of_pos (p : positive) :
  forall (rest : string) (base : N) (b : bool),
    Py.hex_digits (HexString.Raw.of_pos p rest) (Z.of_N base) b =
    Py.hex_digits rest
      (Z.of_N match base with
              | N0 => N.pos p
              | Npos v => Npos (HexString.pos_hex_app v p)
              end) true.
Proof.
  revert p. fix IH 1. intros p rest base b.
  do 4 try destruct p as [p | p |]; destruct base; try reflexivity;
    cbn [HexString.Raw.of_pos]; rewrite (IH p _ _ b); reflexivity.
Qed.

Lemma hex_digits_of_pos_all p :
  Py.hex_digits (HexString.Raw.of_pos p "") 0 false = Some (Zpos p).
Proof. exact (hex_digits_of_pos p "" 0%N false). Qed.

Lemma hex_magnitude_of_pos p :
  Py.hex_magnitude (HexString.of_pos p) = Some (Zpos p).
Proof.
  pose proof (hex_digits_of_pos_all p) as H.
  unfold HexString.of_pos, Py.hex_magnitude.
  change (Ascii.eqb "x" "x" || Ascii.eqb "x" "X") with true. cbv iota.
  destruct (HexString.Raw.of_pos p "") as [| c r]; [exact H |].
  destruct (Ascii.eqb_spec c "_") as [-> | Hc]; [discriminate H |].
  destruct c as [[] [] [] [] [] [] [] []]; first [exact H | contradiction Hc; reflexivity].
Qed.

Lemma int_rstrip_of_pos p :
  Py.int_rstrip (HexString.of_pos p) = HexString.of_pos p.
Proof.
  unfold HexString.of_pos.
  apply int_rstrip_cons; [reflexivity |].
  apply int_rstrip_cons; [reflexivity |].
  exact (hex_digits_rstrip _ _ _ _ (hex_digits_of_pos_all p)).
Qed.

(** [int(hex(n), 16) == n]. *)
Lemma int16_hex (n : Z) : Py.int16 (Py.hex n) = Some n.
Proof.
  unfold Py.int16, Py.hex. destruct n as [| p | p]; [reflexivity | |].
  - change (HexString.of_Z (Z.pos p)) with (HexString.of_pos p).
    change (Py.int_lstrip (HexString.of_pos p)) with (HexString.of_pos p).
    rewrite int_rstrip_of_pos.
    change (HexString.of_pos p) with (String "0" (String "x" (HexString.Raw.of_pos p ""))) at 1.
    cbv iota. apply hex_magnitude_of_pos.
  - change (HexString.of_Z (Z.neg p)) with (String "-" (HexString.of_pos p)).
    change (Py.int_lstrip (String "-" (HexString.of_pos p)))
      with (String "-" (HexString.of_pos p)).
    rewrite int_rstrip_cons; [| reflexivity | apply int_rstrip_of_pos].
    cbv iota. rewrite hex_magnitude_of_pos. reflexivity.
Qed.

(** C6: encryption is the bitwise XOR of the master key with the combined
    hash, and decryption, the same XOR, undoes it: for every key [k] and
    mask [m], [decrypt (encrypt k m) m = k]; the encrypted key that the
    script prints in hexadecimal reads back as the same number. *)
Theorem decrypt_encrypt (k m : Z) :
  decrypt (encrypt k m) m = k /\
  encrypt k m = Z.lxor k m /\
  (forall x, decrypt x m = encrypt x m) /\
  Py.int16 (Py.hex (encrypt k m)) = Some (encrypt k m).
Proof.
  unfold decrypt, encrypt. repeat split.
  - rewrite Z.lxor_assoc, Z.lxor_nilpotent, Z.lxor_0_r. reflexivity.
  - apply int16_hex.
Qed.

(** ** Canonical text *)

Lemma lower_char_idem c : Py.lower_char (Py.lower_char c) = Py.lower_char c.
Proof. destruct c as [[] [] [] [] [] [] [] []]; reflexivity. Qed.

Lemma isspace_lower_char c : Py.isspace (Py.lower_char c) = Py.isspace c.
Proof. destruct c as [[] [] [] [] [] [] [] []]; reflexivity. Qed.

Lemma lower_idem s : Py.lower (Py.lower s) = Py.lower s.
Proof.
  induction s as [| c s IH]; simpl; [reflexivity |].
  rewrite lower_char_idem, IH. reflexivity.
Qed.

Lemma lower_lstrip s : Py.lower (Py.lstrip s) = Py.lstrip (Py.lower s).
Proof.
  induction s as [| c s IH]; simpl; [reflexivity |].
  rewrite isspace_lower_char. destruct (Py.isspace c); [exact IH | reflexivity].
Qed.

Lemma lower_rstrip s : Py.lower (Py.rstrip s) = Py.rstrip (Py.lower s).
Proof.
  induction s as [| c s IH]; simpl; [reflexivity |].
  rewrite <- IH, isspace_lower_char.
  destruct (Py.rstrip s) as [| d r]; simpl.
  - destruct (Py.isspace c); reflexivity.
  - reflexivity.
Qed.

Lemma lower_strip s : Py.lower (Py.strip s) = Py.strip (Py.lower s).
Proof. unfold Py.strip. rewrite lower_rstrip, lower_lstrip. reflexivity. Qed.

Lemma rstrip_idem s : Py.rstrip (Py.rstrip s) = Py.rstrip s.
Proof.
  induction s as [| c s IH]; simpl; [reflexivity |].
  destruct (Py.rstrip s) as [| d r] eqn:E.
  - destruct (Py.isspace c) eqn:Ec; simpl; [reflexivity |].
    rewrite Ec. reflexivity.
  - change (Py.rstrip (String c (String d r))) with
      (match Py.rstrip (String d r) with
       | EmptyString => if Py.isspace c then EmptyString else String c EmptyString
       | x => String c x
       end).
    rewrite IH. reflexivity.
Qed.

(** A text that does not begin with white space keeps its head under
    [rstrip]. *)
Lemma rstrip_head c s :
  Py.isspace c = false -> exists r, Py.rstrip (String c s) = String c r.
Proof.
  intro Hc. simpl. destruct (Py.rstrip s) as [| d r].
  - rewrite Hc. eauto.
  - eauto.
Qed.

Lemma lstrip_head s :
  Py.lstrip s = EmptyString \/
  exists c r, Py.lstrip s = String c r /\ Py.isspace c = false.
Proof.
  induction s as [| c s IH]; simpl; [left; reflexivity |].
  destruct (Py.isspace c) eqn:Ec; [exact IH |].
  right. eauto.
Qed.

Lemma strip_idem s : Py.strip (Py.strip s) = Py.strip s.
Proof.
  unfold Py.strip.
  destruct (lstrip_head s) as [-> | (c & r & -> & Hc)]; [reflexivity |].
  destruct (rstrip_head c r Hc) as (r' & E).
  assert (El : Py.lstrip (Py.rstrip (String c r)) = Py.rstrip (String c r)).
  { rewrite E. simpl. rewrite Hc. reflexivity. }
  rewrite El. apply rstrip_idem.
Qed.

(** C8: the canonical text is a fixed point of the canonicalisation:
    lowercasing and stripping a text that was already lowercased and stripped
    changes nothing, for every text. *)
Theorem normalize_idempotent (x : string) :
  normalize (normalize x) = normalize x.
Proof.
  unfold normalize.
  rewrite lower_strip, lower_idem. apply strip_idem.
Qed.

Lemma answer_hash_normalize (w : world) (i : nat) (a b : string) :
  normalize a = normalize b -> answer_hash w i a = answer_hash w i b.
Proof. intro E. unfold answer_hash. rewrite E. reflexivity. Qed.

(** C7: an answer is lowercased and stripped before it is committed, so
    ["Finney "] and ["FINNEY"] give the commitment of ["Finney"] at every
    slot and in every world: the three texts have the same canonical text
    ["finney"]. *)
Theorem commitment_ignores_case_and_blanks (w : world) (i : nat) :
  answer_hash w i "Finney " = answer_hash w i "Finney" /\
  answer_hash w i "FINNEY" = answer_hash w i "Finney" /\
  normalize "Finney " = "finney" /\
  normalize "FINNEY" = "finney" /\
  normalize "Finney" = "finney".
Proof.
  pose proof (answer_hash_normalize w i "Finney " "Finney" eq_refl).
  pose proof (answer_hash_normalize w i "FINNEY" "Finney" eq_refl).
  repeat split; assumption.
Qed.

(** ** The two wrappers *)

Lemma starkli_to_felt_ok w s st f st' :
  starkli_to_felt w s st = (Ok f, st') ->
  exists stdout,
    run w (to_cairo_string_argv s) = Exited 0 stdout /\ f = Py.strip stdout /\ st' = st.
Proof.
  unfold starkli_to_felt.
  destruct (run w (to_cairo_string_argv s)) as [rc out | | |]; try discriminate.
  destruct (Z.eqb_spec rc 0) as [-> | Hrc].
  - intro H. injection H as <- <-. eauto.
  - intro H. apply bind_ok in H. destruct H as (? & ? & _ & H). discriminate H.
Qed.

Lemma salted_hash_ok w i text st f h st' :
  salted_hash w i text st = (Ok (f, h), st') ->
  exists stdout,
    run w (to_cairo_string_argv text) = Exited 0 stdout /\
    f = Py.strip stdout /\
    starkli_pedersen w f (Py.str (Z.of_nat i)) = Ok h /\
    st' = st.
Proof.
  unfold salted_hash. intro H.
  apply bind_ok in H. destruct H as (f0 & st1 & Hf & H).
  apply starkli_to_felt_ok in Hf. destruct Hf as (out & Hrun & -> & ->).
  apply bind_ok in H. destruct H as (h0 & st2 & Hh & H).
  unfold lift in Hh. injection Hh as Hh <-.
  injection H as <- <- <-.
  exists out. auto.
Qed.

Lemma starkli_pedersen_fallback w a b :
  pedersen_fails w -> starkli_pedersen w a b = Ok (sha256_fallback a b).
Proof.
  intro Hf. destruct (Hf a b) as (rc & out & E & Hrc).
  unfold starkli_pedersen. rewrite E.
  destruct (Z.eqb_spec rc 0); [contradiction | reflexivity].
Qed.

(** ** The combined hash *)

Lemma combined_hash_fold w c0 c1 c2 rest st :
  combined_hash w (c0 :: c1 :: c2 :: rest) st = (fold (starkli_pedersen w) c0 c1 c2, st).
Proof.
  unfold combined_hash, fold, bind, index, lift, ret. simpl.
  destruct (starkli_pedersen w c0 c1); reflexivity.
Qed.

Lemma combined_hash_ok w hs st c st' :
  combined_hash w hs st = (Ok c, st') ->
  exists c0 c1 c2 rest,
    hs = c0 :: c1 :: c2 :: rest /\ fold (starkli_pedersen w) c0 c1 c2 = Ok c /\ st' = st.
Proof.
  destruct hs as [| c0 [| c1 [| c2 rest]]].
  - discriminate.
  - discriminate.
  - unfold combined_hash, bind, index, lift, ret, raise. simpl.
    destruct (starkli_pedersen w c0 c1); discriminate.
  - rewrite combined_hash_fold. intro H. injection H as H <-.
    exists c0, c1, c2, rest. auto.
Qed.

(** ** Steps that leave the files alone *)

Lemma keeps_run_files {A} (m : M A) st r st' :
  keeps_files m -> m st = (r, st') -> files st' = files st.
Proof. intros Hk E. specialize (Hk st). rewrite E in Hk. exact Hk. Qed.

Lemma keeps_ret {A} (a : A) : keeps_files (ret a).
Proof. intro st. reflexivity. Qed.

Lemma keeps_raise {A} e : keeps_files (@raise A e).
Proof. intro st. reflexivity. Qed.

Lemma keeps_lift {A} (r : result A) : keeps_files (lift r).
Proof. intro st. reflexivity. Qed.

Lemma keeps_print w l : keeps_files (print w l).
Proof. intro st. unfold print. destruct (printable _ l); reflexivity. Qed.

Lemma keeps_bind {A B} (m : M A) (f : A -> M B) :
  keeps_files m -> (forall a, keeps_files (f a)) -> keeps_files (bind m f).
Proof.
  intros Hm Hf st. unfold bind.
  specialize (Hm st). destruct (m st) as [[a | e] st1]; simpl in Hm.
  - rewrite Hf. exact Hm.
  - exact Hm.
Qed.

Lemma keeps_index {A} (xs : list A) i : keeps_files (index xs i).
Proof. unfold index. destruct (nth_error xs i); [apply keeps_ret | apply keeps_raise]. Qed.

Lemma keeps_int_base16 s : keeps_files (int_base16 s).
Proof. unfold int_base16. destruct (Py.int16 s); [apply keeps_ret | apply keeps_raise]. Qed.

Create HintDb keeps.
#[local] Hint Resolve keeps_ret keeps_raise keeps_lift keeps_print keeps_index
  keeps_int_base16 : keeps.

Ltac keeps_steps :=
  repeat (apply keeps_bind; [| intro]); auto with keeps.

Lemma keeps_starkli_to_felt w s : keeps_files (starkli_to_felt w s).
Proof.
  unfold starkli_to_felt.
  destruct (run w (to_cairo_string_argv s)) as [rc out | | |]; try apply keeps_raise.
  destruct (rc =? 0); keeps_steps.
Qed.
#[local] Hint Resolve keeps_starkli_to_felt : keeps.

Lemma keeps_salted_hash w i text : keeps_files (salted_hash w i text).
Proof. unfold salted_hash. keeps_steps. Qed.
#[local] Hint Resolve keeps_salted_hash : keeps.

Lemma keeps_answer_hash w i answer : keeps_files (answer_hash w i answer).
Proof. unfold answer_hash. auto with keeps. Qed.
#[local] Hint Resolve keeps_answer_hash : keeps.

Lemma keeps_answers_loop w answers :
  forall i felts hs, keeps_files (answers_loop w i answers felts hs).
Proof.
  induction answers as [| a rest IH]; intros i felts hs; simpl.
  - apply keeps_ret.
  - keeps_steps.
Qed.
#[local] Hint Resolve keeps_answers_loop : keeps.

Lemma keeps_combined_hash w hs : keeps_files (combined_hash w hs).
Proof. unfold combined_hash. keeps_steps. Qed.
#[local] Hint Resolve keeps_combined_hash : keeps.

Lemma keeps_banner w title : keeps_files (banner w title).
Proof. unfold banner. keeps_steps. Qed.
#[local] Hint Resolve keeps_banner : keeps.

Lemma keeps_calculate_hashes w c : keeps_files (calculate_hashes w c).
Proof. unfold calculate_hashes. keeps_steps. Qed.

Lemma keeps_deploy_commands w c h : keeps_files (deploy_commands w c h).
Proof. unfold deploy_commands. keeps_steps. Qed.

Lemma keeps_for_enumerate {A} (body : nat -> A -> M unit) xs :
  (forall i x, keeps_files (body i x)) ->
  forall i, keeps_files (for_enumerate i xs body).
Proof.
  intro Hb. induction xs as [| x xs IH]; intro i; simpl.
  - apply keeps_ret.
  - apply keeps_bind; [apply Hb | intro; apply IH].
Qed.

Lemma keeps_test_hash_verification w h : keeps_files (test_hash_verification w h).
Proof.
  unfold test_hash_verification.
  apply keeps_bind; [auto with keeps | intro].
  apply keeps_bind; [auto with keeps | intro].
  apply keeps_for_enumerate. intros i x. unfold test_answer. keeps_steps.
Qed.

(** ** The loop over the answers *)

Lemma print_ok w l st u st' :
  print w l st = (Ok u, st') -> files st' = files st.
Proof. intro H. exact (keeps_run_files _ _ _ _ (keeps_print w l) H). Qed.

Lemma print_ok_console w l st u st' :
  print w l st = (Ok u, st') -> console st' = (console st ++ [l])%list.
Proof.
  unfold print. destruct (printable _ l); intro H; [| discriminate].
  injection H as _ <-. reflexivity.
Qed.

Lemma answers_loop_ok w answers :
  forall i felts hs st felts' hs' st',
    answers_loop w i answers felts hs st = (Ok (felts', hs'), st') ->
    exists new_felts new_hs,
      felts' = (felts ++ new_felts)%list /\
      hs' = (hs ++ new_hs)%list /\
      committed w i answers new_felts new_hs.
Proof.
  induction answers as [| a rest IH]; intros i felts hs st felts' hs' st' H; simpl in H.
  - injection H as <- <- <-. exists [], []. rewrite !app_nil_r.
    repeat split. constructor.
  - apply bind_ok in H. destruct H as ([f h] & st1 & Hc & H).
    unfold answer_hash in Hc. apply salted_hash_ok in Hc.
    destruct Hc as (out & Hrun & -> & Hh & ->).
    do 3 (apply bind_ok in H; destruct H as (? & ? & _ & H)).
    apply IH in H. destruct H as (nf & nh & -> & -> & Hrest). simpl.
    exists (Py.strip out :: nf), (h :: nh).
    rewrite <- !app_assoc. simpl. repeat split.
    constructor; assumption.
Qed.

(** ** The hash computation as a whole *)

Lemma calculate_hashes_ok w c st h st' :
  calculate_hashes w c st = (Ok h, st') ->
  exists stdout master_key_int combined_int,
    run w (to_cairo_string_argv (normalize (USERNAME c))) = Exited 0 stdout /\
    username_hash h = Py.strip stdout /\
    committed w 0 (ANSWERS c) (answer_felts h) (answer_hashes h) /\
    combined_hash w (answer_hashes h) st' = (Ok (combined h), st') /\
    Py.int16 (MASTER_KEY c) = Some master_key_int /\
    Py.int16 (combined h) = Some combined_int /\
    encrypted_key h = Py.hex (encrypt master_key_int combined_int).
Proof.
  unfold calculate_hashes. intro H.
  apply bind_ok in H. destruct H as (k0 & s0 & _ & H).
  do 4 (apply bind_ok in H; destruct H as (? & ? & _ & H)).
  apply bind_ok in H. destruct H as (uh & s1 & Hu & H).
  apply starkli_to_felt_ok in Hu. destruct Hu as (out & Hrun & -> & _).
  do 3 (apply bind_ok in H; destruct H as (? & ? & _ & H)).
  apply bind_ok in H. destruct H as ([fs hs] & s2 & Hloop & H).
  apply answers_loop_ok in Hloop. destruct Hloop as (nf & nh & -> & -> & Hcomm).
  apply bind_ok in H. destruct H as (? & ? & _ & H).
  apply bind_ok in H. destruct H as (comb & s3 & Hcomb & H).
  apply bind_ok in H. destruct H as (mk & s4 & Hmk & H).
  apply bind_ok in H. destruct H as (ci & s5 & Hci & H).
  do 3 (apply bind_ok in H; destruct H as (? & ? & _ & H)).
  injection H as <- <-. simpl in *.
  unfold int_base16 in Hmk, Hci.
  destruct (Py.int16 (MASTER_KEY c)) as [mk' |] eqn:Emk; [| discriminate].
  destruct (Py.int16 comb) as [ci' |] eqn:Eci; [| discriminate].
  injection Hmk as <- _. injection Hci as <- _.
  exists out, mk', ci'. repeat split; try assumption.
  apply combined_hash_ok in Hcomb.
  destruct Hcomb as (c0 & c1 & c2 & rest & -> & Hfold & _).
  rewrite combined_hash_fold, Hfold. reflexivity.
Qed.

(** X6: the encrypted key of a completed hash computation, read back by
    [int(., 16)] and XORed with the combined hash, is the master key. *)
Corollary encrypted_key_decrypts w c st h st' :
  calculate_hashes w c st = (Ok h, st') ->
  exists k m e,
    Py.int16 (MASTER_KEY c) = Some k /\
    Py.int16 (combined h) = Some m /\
    Py.int16 (encrypted_key h) = Some e /\
    e = encrypt k m /\
    decrypt e m = k.
Proof.
  intro H. apply calculate_hashes_ok in H.
  destruct H as (out & k & m & _ & _ & _ & _ & Hk & Hm & He).
  exists k, m, (encrypt k m). rewrite He, int16_hex.
  repeat split; try assumption.
  unfold decrypt, encrypt.
  rewrite Z.lxor_assoc, Z.lxor_nilpotent, Z.lxor_0_r. reflexivity.
Qed.

(** C3: the combined hash of the script is the left-to-right pairwise fold
    of the first three answer commitments, [hash (hash c0 c1) c2], with the
    pairwise hash that also made the commitments: whenever the hash
    computation completes, its combined hash is that fold, and the answer
    hashes are the pairwise hashes of the answer felts with their slot
    numbers. *)
Theorem combined_hash_is_left_fold (w : world) (c : config) (st st' : state) (h : hashes) :
  calculate_hashes w c st = (Ok h, st') ->
  exists c0 c1 c2 rest,
    answer_hashes h = c0 :: c1 :: c2 :: rest /\
    fold (starkli_pedersen w) c0 c1 c2 = Ok (combined h) /\
    committed w 0 (ANSWERS c) (answer_felts h) (answer_hashes h) /\
    (forall x y z more s, combined_hash w (x :: y :: z :: more) s =
                          (fold (starkli_pedersen w) x y z, s)).
Proof.
  intro H. apply calculate_hashes_ok in H.
  destruct H as (out & mk & ci & _ & _ & Hcomm & Hcomb & _).
  apply combined_hash_ok in Hcomb.
  destruct Hcomb as (c0 & c1 & c2 & rest & E & Hfold & _).
  exists c0, c1, c2, rest. repeat split; try assumption.
  intros. apply combined_hash_fold.
Qed.

Lemma combined_hash_is_left_fold_witness :
  exists h st',
    calculate_hashes world_without_pedersen user_config initial = (Ok h, st') /\
    exists c0 c1 c2 rest,
      answer_hashes h = c0 :: c1 :: c2 :: rest /\
      fold (starkli_pedersen world_without_pedersen) c0 c1 c2 = Ok (combined h) /\
      committed world_without_pedersen 0 (ANSWERS user_config)
        (answer_felts h) (answer_hashes h) /\
      (forall x y z more s,
         combined_hash world_without_pedersen (x :: y :: z :: more) s =
         (fold (starkli_pedersen world_without_pedersen) x y z, s)).
Proof.
  eexists. eexists. split.
  - vm_compute. reflexivity.
  - eapply (combined_hash_is_left_fold world_without_pedersen user_config initial).
    vm_compute. reflexivity.
Defined.

(** ** Texts side by side *)

Lemma append_assoc (a b c : string) : (a ++ b) ++ c = a ++ (b ++ c).
Proof. induction a as [| x a IH]; simpl; [reflexivity | rewrite IH; reflexivity]. Qed.

Lemma list_ascii_of_string_app (a b : string) :
  list_ascii_of_string (a ++ b) = (list_ascii_of_string a ++ list_ascii_of_string b)%list.
Proof. induction a as [| x a IH]; simpl; [reflexivity | rewrite IH; reflexivity]. Qed.



Lemma rstrip_closing (t : string) : Py.rstrip (t ++ ")") = t ++ ")".
Proof.
  induction t as [| x t IH]; simpl; [reflexivity |].
  rewrite IH. destruct t; reflexivity.
Qed.

(** In the symbolic world the hash of two texts is the query itself. *)
Lemma symbolic_pedersen (a b : string) :
  starkli_pedersen symbolic_world a b = Ok ("pedersen(" ++ a ++ ", " ++ b ++ ")").
Proof.
  unfold starkli_pedersen.
  change (run symbolic_world (pedersen_argv a b))
    with (Exited 0 ("pedersen(" ++ a ++ ", " ++ b ++ ")")).
  cbv beta iota. change (0 =? 0) with true. cbv iota. f_equal.
  unfold Py.strip.
  change (Py.lstrip ("pedersen(" ++ a ++ ", " ++ b ++ ")"))
    with ("pedersen(" ++ a ++ ", " ++ b ++ ")").
  rewrite <- !append_assoc. apply rstrip_closing.
Qed.


(** ** The pairwise hash *)




(** ** Order of the commitments *)

(** C4: the fold of the commitments depends on their order. Wherever the
    hash query fails, so that the hash is the SHA-256 fallback, the
    commitments of the three configured answers combine to one value in slot
    order and to another with the first two exchanged; the same holds when
    hashes are symbolic terms. *)
Theorem fold_not_commutative (w : world) (st : state) :
  pedersen_fails w ->
  (exists c0 c1 c2 r r',
     combined_hash w [c0; c1; c2] st = (Ok r, st) /\
     combined_hash w [c1; c0; c2] st = (Ok r', st) /\
     r <> r') /\
  (exists c0 c1 c2 r r',
     combined_hash symbolic_world [c0; c1; c2] st = (Ok r, st) /\
     combined_hash symbolic_world [c1; c0; c2] st = (Ok r', st) /\
     r <> r').
Proof.
  intro Hf. split.
  - exists "0x6ba01debc71e90b15eb33c94965f04987712acfa6240c9a4c330e5e2b25ac2",
           "0x859a4925b199166e3249203cc6aae2c6f9cdc74826485160d3bd21aa5901b7",
           "0xb5e9f2c9a43d67eca33cc8bb130906149cbdd4dc3edb9b537e766f53edc26b".
    rewrite !combined_hash_fold. unfold fold.
    rewrite !(starkli_pedersen_fallback w _ _ Hf).
    eexists. eexists. split; [| split].
    + vm_compute. reflexivity.
    + vm_compute. reflexivity.
    + discriminate.
  - exists "0x1", "0x2", "0x3".
    rewrite !combined_hash_fold. unfold fold.
    rewrite !symbolic_pedersen.
    eexists. eexists. split; [reflexivity | split; [reflexivity |]].
    discriminate.
Qed.

Lemma world_without_pedersen_fails : pedersen_fails world_without_pedersen.
Proof. intros a b. exists 1, "". split; [reflexivity | discriminate]. Qed.

Lemma fold_not_commutative_witness :
  pedersen_fails world_without_pedersen /\
  exists c0 c1 c2 r r',
    combined_hash world_without_pedersen [c0; c1; c2] initial = (Ok r, initial) /\
    combined_hash world_without_pedersen [c1; c0; c2] initial = (Ok r', initial) /\
    r <> r'.
Proof.
  split; [exact world_without_pedersen_fails |].
  exact (proj1 (fold_not_commutative world_without_pedersen initial
                  world_without_pedersen_fails)).
Defined.

(** ** Slots *)





(** On the fallback hash the three slots give one configured answer three
    different commitments. *)
Example fallback_commitments_differ :
  exists f h0 h1 h2,
    answer_hash world_without_pedersen 0 "Denis Guedj" initial = (Ok (f, h0), initial) /\
    answer_hash world_without_pedersen 1 "Denis Guedj" initial = (Ok (f, h1), initial) /\
    answer_hash world_without_pedersen 2 "Denis Guedj" initial = (Ok (f, h2), initial) /\
    h0 <> h1 /\ h0 <> h2 /\ h1 <> h2.
Proof.
  do 4 eexists.
  split; [vm_compute; reflexivity |].
  split; [vm_compute; reflexivity |].
  split; [vm_compute; reflexivity |].
  repeat split; discriminate.
Qed.

(** ** What reaches the files *)

Lemma bind_cases {A B} (m : M A) (f : A -> M B) st r st' :
  bind m f st = (r, st') ->
  (exists e, m st = (Raise e, st') /\ r = Raise e) \/
  (exists a st1, m st = (Ok a, st1) /\ f a st1 = (r, st')).
Proof.
  unfold bind. destruct (m st) as [[a | e] st1]; intro H.
  - right. eauto.
  - left. injection H as <- <-. eauto.
Qed.

Lemma keeps_run {A} (m : M A) st r st' :
  keeps_files m -> m st = (r, st') -> files st' = files st.
Proof. intros Hk E. specialize (Hk st). rewrite E in Hk. exact Hk. Qed.

Lemma index_ok {A} (xs : list A) i st x st' :
  index xs i st = (Ok x, st') -> nth_error xs i = Some x /\ st' = st.
Proof.
  unfold index. destruct (nth_error xs i); intro H; [| discriminate].
  injection H as <- <-. auto.
Qed.

Lemma committed_felt w i answers felts hs a :
  committed w i answers felts hs -> In a answers ->
  exists stdout, run w (to_cairo_string_argv (normalize a)) = Exited 0 stdout.
Proof.
  induction 1 as [| i x rest out h felts hs Hrun Hh Hrest IH]; intro Hin.
  - destruct Hin.
  - destruct Hin as [<- | Hin]; eauto.
Qed.

(** A write either raises and changes nothing, or adds the content. *)
Lemma write_file_run w path content st r st' :
  write_file w path content st = (r, st') ->
  ((exists e, r = Raise e) /\ st' = st) \/
  (r = Ok tt /\
   can_open w path = true /\
   encodable (file_encodes w) content = true /\
   files st' = (files st ++ [(path, content)])%list /\
   console st' = console st).
Proof.
  unfold write_file.
  destruct (can_open w path); [destruct (encodable (file_encodes w) content) |];
    intro H; injection H as <- <-.
  - right. repeat split.
  - left. eauto.
  - left. eauto.
Qed.

(** The frontend step either leaves the files alone or adds the
    configuration file, whose content is the template filled with the
    username, its hash, the duration and the first three answers. *)
Lemma frontend_configuration_files w c h st r st' :
  frontend_configuration w c h st = (r, st') ->
  (files st' = files st /\ exists e, r = Raise e) \/
  exists a0 a1 a2,
    nth_error (ANSWERS c) 0 = Some a0 /\
    nth_error (ANSWERS c) 1 = Some a1 /\
    nth_error (ANSWERS c) 2 = Some a2 /\
    files st' =
      (files st ++ [("frontend/config.js",
                     env_content (USERNAME c) (username_hash h) (SONG_DURATION c) a0 a1 a2)])%list.
Proof.
  unfold frontend_configuration. intro H.
  apply bind_cases in H. destruct H as [(e & H & ->) | (u & s1 & Hb & H)].
  { left. split; [exact (keeps_run _ _ _ _ (keeps_banner _ _) H) | eauto]. }
  apply (keeps_run _ _ _ _ (keeps_banner _ _)) in Hb.
  apply bind_cases in H. destruct H as [(e & H & ->) | (a0 & s2 & H0 & H)].
  { left. rewrite (keeps_run _ _ _ _ (keeps_index _ _) H). eauto. }
  apply index_ok in H0. destruct H0 as (E0 & ->).
  apply bind_cases in H. destruct H as [(e & H & ->) | (a1 & s2 & H1 & H)].
  { left. rewrite (keeps_run _ _ _ _ (keeps_index _ _) H). eauto. }
  apply index_ok in H1. destruct H1 as (E1 & ->).
  apply bind_cases in H. destruct H as [(e & H & ->) | (a2 & s2 & H2 & H)].
  { left. rewrite (keeps_run _ _ _ _ (keeps_index _ _) H). eauto. }
  apply index_ok in H2. destruct H2 as (E2 & ->).
  apply bind_cases in H. destruct H as [(e & H & ->) | (u1 & s2 & Hp & H)].
  { left. rewrite (keeps_run _ _ _ _ (keeps_print _ _) H). eauto. }
  apply print_ok in Hp.
  apply bind_cases in H. destruct H as [(e & H & ->) | (u2 & s3 & Hw & H)].
  - left. apply write_file_run in H.
    destruct H as [(_ & ->) | (N & _)]; [| discriminate N].
    split; [congruence | eauto].
  - right. exists a0, a1, a2. repeat split; try assumption.
    apply write_file_run in Hw.
    destruct Hw as [((e & N) & _) | (_ & _ & _ & F & _)]; [discriminate N |].
    rewrite (keeps_run _ _ _ _ (keeps_print _ _) H), F. congruence.
Qed.

(** The last step either leaves the files alone or adds the test script. *)
Lemma recovery_test_script_files w h st r st' :
  recovery_test_script w h st = (r, st') ->
  files st' = files st \/
  exists content, files st' = (files st ++ [("scripts/test_recovery.sh", content)])%list.
Proof.
  unfold recovery_test_script. intro H.
  apply bind_cases in H. destruct H as [(e & H & ->) | (h0 & s1 & H0 & H)].
  { left. exact (keeps_run _ _ _ _ (keeps_index _ _) H). }
  apply index_ok in H0. destruct H0 as (_ & ->).
  apply bind_cases in H. destruct H as [(e & H & ->) | (h1 & s1 & H1 & H)].
  { left. exact (keeps_run _ _ _ _ (keeps_index _ _) H). }
  apply index_ok in H1. destruct H1 as (_ & ->).
  apply bind_cases in H. destruct H as [(e & H & ->) | (h2 & s1 & H2 & H)].
  { left. exact (keeps_run _ _ _ _ (keeps_index _ _) H). }
  apply index_ok in H2. destruct H2 as (_ & ->).
  apply bind_cases in H. destruct H as [(e & H & ->) | (u & s1 & Hw & H)].
  - left. apply write_file_run in H.
    destruct H as [(_ & ->) | (N & _)]; [reflexivity | discriminate N].
  - right. apply write_file_run in Hw.
    destruct Hw as [((e & N) & _) | (_ & _ & _ & F & _)]; [discriminate N |].
    assert (Hk : keeps_files
              (print w (Marked nl true " Test script saved to scripts/test_recovery.sh") ;;
               banner w "NEXT STEPS" ;; print w (Text next_steps))) by keeps_steps.
    rewrite (keeps_run _ _ _ _ Hk H), F. eauto.
Qed.

(** The files of a run: none while the hashes are computed and the deploy
    commands shown, then the configuration file, then the test script. *)
Lemma setup_files w c r st :
  setup w c initial = (r, st) ->
  (files st = [] /\ exists e, r = Raise e) \/
  exists h st1 a0 a1 a2 content,
    calculate_hashes w c initial = (Ok h, st1) /\
    nth_error (ANSWERS c) 0 = Some a0 /\
    nth_error (ANSWERS c) 1 = Some a1 /\
    nth_error (ANSWERS c) 2 = Some a2 /\
    content = env_content (USERNAME c) (username_hash h) (SONG_DURATION c) a0 a1 a2 /\
    (files st = [("frontend/config.js", content)] \/
     exists script,
       files st = [("frontend/config.js", content); ("scripts/test_recovery.sh", script)]).
Proof.
  unfold setup. intro H.
  apply bind_cases in H. destruct H as [(e & H & ->) | (h & s1 & Hh & H)].
  { left. split; [exact (keeps_run _ _ _ _ (keeps_calculate_hashes _ _) H) | eauto]. }
  pose proof (keeps_run _ _ _ _ (keeps_calculate_hashes _ _) Hh) as F1.
  apply bind_cases in H. destruct H as [(e & H & ->) | (u & s2 & Hd & H)].
  { left. rewrite (keeps_run _ _ _ _ (keeps_deploy_commands _ _ _) H). eauto. }
  apply (keeps_run _ _ _ _ (keeps_deploy_commands _ _ _)) in Hd.
  assert (Hfront : forall r2 s3, frontend_configuration w c h s2 = (r2, s3) ->
            (files s3 = [] /\ exists e, r2 = Raise e) \/
            exists a0 a1 a2,
              nth_error (ANSWERS c) 0 = Some a0 /\
              nth_error (ANSWERS c) 1 = Some a1 /\
              nth_error (ANSWERS c) 2 = Some a2 /\
              files s3 = [("frontend/config.js",
                env_content (USERNAME c) (username_hash h) (SONG_DURATION c) a0 a1 a2)]).
  { intros r2 s3 E. apply frontend_configuration_files in E.
    rewrite Hd, F1 in E. exact E. }
  apply bind_cases in H. destruct H as [(e & H & ->) | (u1 & s3 & Hf & H)].
  { destruct (Hfront _ _ H) as [(F & _) | (a0 & a1 & a2 & E0 & E1 & E2 & F)].
    - left. split; [exact F | exists e; reflexivity].
    - right. exists h, s1, a0, a1, a2. eexists.
      split; [exact Hh |]. do 4 (split; [eassumption || reflexivity |]).
      left. exact F. }
  destruct (Hfront _ _ Hf) as [(_ & e & He) | (a0 & a1 & a2 & E0 & E1 & E2 & F)];
    [discriminate He |].
  right. exists h, s1, a0, a1, a2. eexists.
  split; [exact Hh |]. do 4 (split; [eassumption || reflexivity |]).
  apply bind_cases in H. destruct H as [(e & H & ->) | (u2 & s4 & Ht & H)].
  { left. rewrite (keeps_run _ _ _ _ (keeps_test_hash_verification _ _) H). exact F. }
  apply (keeps_run _ _ _ _ (keeps_test_hash_verification _ _)) in Ht.
  apply recovery_test_script_files in H. rewrite Ht, F in H.
  destruct H as [H | (script & H)]; [left; exact H | right].
  exists script. exact H.
Qed.

(** ** Failures while the hashes are computed *)

(** C2 as stated fails: in a world where every hash query fails, the script
    does not exit; it runs to its end on the fallback hash and writes both
    files. *)
Lemma failed_hash_does_not_abort :
  pedersen_fails world_without_pedersen /\
  exists st,
    setup world_without_pedersen user_config initial = (Ok tt, st) /\
    map fst (files st) = ["frontend/config.js"; "scripts/test_recovery.sh"].
Proof.
  split.
  - intros a b. exists 1, "". split; [reflexivity | discriminate].
  - eexists. split; vm_compute; reflexivity.
Qed.

(** C2, amended: when the felt conversion of the username or of an answer
    fails, the script ends with an exception before any file is written; and
    more generally no file is written unless the hash computation has
    completed. A failing hash query is not such a failure: it yields the
    fallback value and the script goes on. *)
Theorem setup_aborts_before_writing (w : world) (c : config) :
  (felt_fails w (USERNAME c) \/ exists a, In a (ANSWERS c) /\ felt_fails w a) ->
  (exists e st, setup w c initial = (Raise e, st) /\ files st = []) /\
  (forall r st, setup w c initial = (r, st) -> files st <> [] ->
     exists h st1, calculate_hashes w c initial = (Ok h, st1)) /\
  (forall a b returncode stdout,
     run w (pedersen_argv a b) = Exited returncode stdout -> returncode <> 0 ->
     starkli_pedersen w a b = Ok (sha256_fallback a b)).
Proof.
  intro Hfail. split; [| split].
  - destruct (run_cases (calculate_hashes w c) initial) as [(h & st1 & E) | (e & st1 & E)].
    + exfalso. apply calculate_hashes_ok in E.
      destruct E as (out & mk & ci & Hrun & _ & Hcomm & _).
      destruct Hfail as [(rc & out' & Hrun' & Hrc) | (a & Hin & rc & out' & Hrun' & Hrc)].
      * rewrite Hrun in Hrun'. injection Hrun' as <- _. apply Hrc. reflexivity.
      * destruct (committed_felt _ _ _ _ _ a Hcomm Hin) as (o & Ho).
        rewrite Ho in Hrun'. injection Hrun' as <- _. apply Hrc. reflexivity.
    + exists e, st1. split.
      * unfold setup. apply bind_raise. exact E.
      * exact (keeps_run _ _ _ _ (keeps_calculate_hashes _ _) E).
  - intros r st E Hne. apply setup_files in E.
    destruct E as [(F & _) | (h & st1 & _ & _ & _ & _ & Hh & _)].
    + contradiction.
    + eauto.
  - intros a b rc out E Hrc. unfold starkli_pedersen. rewrite E.
    destruct (Z.eqb_spec rc 0); [contradiction | reflexivity].
Qed.

Lemma setup_aborts_before_writing_witness :
  (felt_fails world_without_pedersen (USERNAME long_answer_config) \/
   exists a, In a (ANSWERS long_answer_config) /\ felt_fails world_without_pedersen a) /\
  exists e st,
    setup world_without_pedersen long_answer_config initial = (Raise e, st) /\
    files st = [].
Proof.
  assert (H : felt_fails world_without_pedersen (USERNAME long_answer_config) \/
              exists a, In a (ANSWERS long_answer_config) /\
                        felt_fails world_without_pedersen a).
  { right. exists "the name of the street where I grew up". split.
    - simpl. auto.
    - exists 1, "". split; [vm_compute; reflexivity | discriminate]. }
  split; [exact H |].
  exact (proj1 (setup_aborts_before_writing world_without_pedersen long_answer_config H)).
Defined.

(** ** The configuration file *)

Lemma prefix_append (a q : string) : String.prefix a (a ++ q) = true.
Proof.
  induction a as [| x a IH]; simpl; [destruct q; reflexivity |].
  destruct (ascii_dec x x) as [_ | N]; [exact IH | contradiction N; reflexivity].
Qed.

Lemma contains_prefix (text needle : string) :
  String.prefix needle text = true -> contains text needle = true.
Proof. intro H. destruct text; cbn [contains]; rewrite H; reflexivity. Qed.

Lemma contains_here (a q : string) : contains (a ++ q) a = true.
Proof. apply contains_prefix, prefix_append. Qed.

Lemma contains_skip (p t a : string) : contains t a = true -> contains (p ++ t) a = true.
Proof.
  intro H. induction p as [| x p IH]; simpl; [exact H |].
  rewrite IH. apply orb_true_r.
Qed.

Lemma env_content_contains username username_hash song_duration a0 a1 a2 :
  let content := env_content username username_hash song_duration a0 a1 a2 in
  contains content a0 = true /\ contains content a1 = true /\ contains content a2 = true.
Proof.
  unfold env_content.
  repeat split; repeat first [apply contains_here | apply contains_skip].
Qed.

Lemma written_config_js st content :
  (files st = [("frontend/config.js", content)] \/
   exists script,
     files st = [("frontend/config.js", content); ("scripts/test_recovery.sh", script)]) ->
  written st "frontend/config.js" = Some content.
Proof.
  unfold written. intros [-> | (script & ->)]; reflexivity.
Qed.

Lemma config_js_formula w c r st content :
  setup w c initial = (r, st) ->
  written st "frontend/config.js" = Some content ->
  exists stdout a0 a1 a2,
    run w (to_cairo_string_argv (normalize (USERNAME c))) = Exited 0 stdout /\
    nth_error (ANSWERS c) 0 = Some a0 /\
    nth_error (ANSWERS c) 1 = Some a1 /\
    nth_error (ANSWERS c) 2 = Some a2 /\
    content = env_content (USERNAME c) (Py.strip stdout) (SONG_DURATION c) a0 a1 a2.
Proof.
  intros E W. apply setup_files in E.
  destruct E as [(F & _) | (h & st1 & a0 & a1 & a2 & content0 & Hh & E0 & E1 & E2 & -> & F)].
  - unfold written in W. rewrite F in W. discriminate W.
  - rewrite (written_config_js _ _ F) in W. injection W as <-.
    apply calculate_hashes_ok in Hh.
    destruct Hh as (out & mk & ci & Hrun & -> & _).
    exists out, a0, a1, a2. auto.
Qed.

(** C1 as stated fails: the configuration file of a run on the configured
    answers holds each of the three answers in plain text. *)
Lemma config_js_carries_the_answers :
  exists st content,
    setup world_without_pedersen user_config initial = (Ok tt, st) /\
    written st "frontend/config.js" = Some content /\
    contains content "Denis Guedj" = true /\
    contains content "2012" = true /\
    contains content "Finney" = true.
Proof.
  eexists. eexists. split; [vm_compute; reflexivity |].
  split; [vm_compute; reflexivity |].
  repeat split; vm_compute; reflexivity.
Qed.

(** C1, amended: whatever a run writes to the configuration file is the
    fixed template filled with the username, the username hash, the song
    duration and the first three answers in plain text; the master key is
    not among the values written, and the content is the same for every
    master key. *)
Theorem config_js_content (w : world) (c : config) (r : result unit) (st : state)
    (content : string) :
  setup w c initial = (r, st) ->
  written st "frontend/config.js" = Some content ->
  exists stdout a0 a1 a2,
    run w (to_cairo_string_argv (normalize (USERNAME c))) = Exited 0 stdout /\
    nth_error (ANSWERS c) 0 = Some a0 /\
    nth_error (ANSWERS c) 1 = Some a1 /\
    nth_error (ANSWERS c) 2 = Some a2 /\
    content = env_content (USERNAME c) (Py.strip stdout) (SONG_DURATION c) a0 a1 a2 /\
    contains content a0 = true /\
    contains content a1 = true /\
    contains content a2 = true /\
    (forall k r' st' content',
       setup w (with_master_key c k) initial = (r', st') ->
       written st' "frontend/config.js" = Some content' ->
       content' = content).
Proof.
  intros E W.
  destruct (config_js_formula _ _ _ _ _ E W) as (out & a0 & a1 & a2 & Hrun & E0 & E1 & E2 & ->).
  exists out, a0, a1, a2.
  destruct (env_content_contains (USERNAME c) (Py.strip out) (SONG_DURATION c) a0 a1 a2)
    as (C0 & C1 & C2).
  repeat split; try assumption.
  intros k r' st' content' E' W'.
  destruct (config_js_formula _ _ _ _ _ E' W')
    as (out' & b0 & b1 & b2 & Hrun' & F0 & F1 & F2 & ->).
  unfold with_master_key in Hrun', F0, F1, F2 |- *.
  cbn [USERNAME ANSWERS SONG_DURATION] in Hrun', F0, F1, F2 |- *.
  rewrite Hrun in Hrun'. injection Hrun' as <-.
  rewrite E0 in F0. rewrite E1 in F1. rewrite E2 in F2.
  injection F0 as <-. injection F1 as <-. injection F2 as <-.
  reflexivity.
Qed.

Lemma config_js_content_witness :
  exists st content,
    setup world_without_pedersen user_config initial = (Ok tt, st) /\
    written st "frontend/config.js" = Some content /\
    exists stdout a0 a1 a2,
      run world_without_pedersen
        (to_cairo_string_argv (normalize (USERNAME user_config))) = Exited 0 stdout /\
      nth_error (ANSWERS user_config) 0 = Some a0 /\
      nth_error (ANSWERS user_config) 1 = Some a1 /\
      nth_error (ANSWERS user_config) 2 = Some a2 /\
      content = env_content (USERNAME user_config) (Py.strip stdout)
                  (SONG_DURATION user_config) a0 a1 a2 /\
      contains content a0 = true /\
      contains content a1 = true /\
      contains content a2 = true /\
      (forall k r' st' content',
         setup world_without_pedersen (with_master_key user_config k) initial = (r', st') ->
         written st' "frontend/config.js" = Some content' ->
         content' = content).
Proof.
  eexists. eexists.
  assert (E : setup world_without_pedersen user_config initial =
              (Ok tt, snd (setup world_without_pedersen user_config initial)))
    by (vm_compute; reflexivity).
  assert (W : written (snd (setup world_without_pedersen user_config initial))
                "frontend/config.js" =
              Some (env_content "alice" "0x616c696365" 218 "Denis Guedj" "2012" "Finney"))
    by (vm_compute; reflexivity).
  split; [exact E | split; [exact W |]].
  exact (config_js_content _ _ _ _ _ E W).
Defined.

(** ** The self-test *)

Lemma verdicts_app (l1 l2 : list line) :
  verdicts (l1 ++ l2) = (verdicts l1 ++ verdicts l2)%list.
Proof.
  induction l1 as [| l l1 IH]; simpl; [reflexivity |].
  destruct l as [s | before ok after | argv rc]; try exact IH.
  destruct (String.eqb before "  "); simpl; rewrite IH; reflexivity.
Qed.

Lemma quiet_same {A} (m : M A) : (forall st, snd (m st) = st) -> quiet m.
Proof. intros H st. exists []. rewrite H, app_nil_r. auto. Qed.

Lemma quiet_ret {A} (a : A) : quiet (ret a).
Proof. apply quiet_same. reflexivity. Qed.

Lemma quiet_raise {A} e : quiet (@raise A e).
Proof. apply quiet_same. reflexivity. Qed.

Lemma quiet_lift {A} (r : result A) : quiet (lift r).
Proof. apply quiet_same. reflexivity. Qed.

Lemma quiet_index {A} (xs : list A) i : quiet (index xs i).
Proof. unfold index. destruct (nth_error xs i); [apply quiet_ret | apply quiet_raise]. Qed.

Lemma quiet_int_base16 s : quiet (int_base16 s).
Proof. unfold int_base16. destruct (Py.int16 s); [apply quiet_ret | apply quiet_raise]. Qed.

Lemma quiet_print w l : verdicts [l] = [] -> quiet (print w l).
Proof.
  intros H st. unfold print. destruct (printable _ l).
  - exists [l]. auto.
  - exists []. simpl. rewrite app_nil_r. auto.
Qed.

Lemma quiet_write_file w path content : quiet (write_file w path content).
Proof.
  intro st. exists []. unfold write_file.
  destruct (can_open w path); [destruct (encodable _ content) |];
    simpl; rewrite app_nil_r; auto.
Qed.

Lemma quiet_bind {A B} (m : M A) (f : A -> M B) :
  quiet m -> (forall a, quiet (f a)) -> quiet (bind m f).
Proof.
  intros Hm Hf st. unfold bind.
  destruct (Hm st) as (l1 & E1 & V1).
  destruct (m st) as [[a | e] st1]; simpl in E1.
  - destruct (Hf a st1) as (l2 & E2 & V2).
    exists (l1 ++ l2)%list. rewrite E2, E1, app_assoc, verdicts_app, V1, V2. auto.
  - exists l1. auto.
Qed.

Create HintDb quiet.
#[local] Hint Resolve quiet_ret quiet_raise quiet_lift quiet_index quiet_int_base16
  quiet_write_file : quiet.

Ltac quiet_steps :=
  repeat (apply quiet_bind; [| intro]);
  try (apply quiet_print; reflexivity); auto with quiet.

Lemma quiet_starkli_to_felt w s : quiet (starkli_to_felt w s).
Proof.
  unfold starkli_to_felt.
  destruct (run w (to_cairo_string_argv s)) as [rc out | | |]; try apply quiet_raise.
  destruct (rc =? 0); quiet_steps.
Qed.
#[local] Hint Resolve quiet_starkli_to_felt : quiet.

Lemma quiet_salted_hash w i text : quiet (salted_hash w i text).
Proof. unfold salted_hash. quiet_steps. Qed.
#[local] Hint Resolve quiet_salted_hash : quiet.

Lemma quiet_answers_loop w answers :
  forall i felts hs, quiet (answers_loop w i answers felts hs).
Proof.
  induction answers as [| a rest IH]; intros i felts hs; simpl.
  - apply quiet_ret.
  - unfold answer_hash. quiet_steps.
Qed.
#[local] Hint Resolve quiet_answers_loop : quiet.

Lemma quiet_banner w title : quiet (banner w title).
Proof. unfold banner. quiet_steps. Qed.
#[local] Hint Resolve quiet_banner : quiet.

Lemma quiet_calculate_hashes w c : quiet (calculate_hashes w c).
Proof. unfold calculate_hashes, combined_hash. quiet_steps. Qed.

Lemma quiet_deploy_commands w c h : quiet (deploy_commands w c h).
Proof. unfold deploy_commands. quiet_steps. Qed.

Lemma quiet_frontend_configuration w c h : quiet (frontend_configuration w c h).
Proof. unfold frontend_configuration. quiet_steps. Qed.

Lemma quiet_recovery_test_script w h : quiet (recovery_test_script w h).
Proof. unfold recovery_test_script. quiet_steps. Qed.

Lemma quiet_run {A} (m : M A) st r st' :
  quiet m -> m st = (r, st') ->
  exists ls, console st' = (console st ++ ls)%list /\ verdicts ls = [].
Proof. intros Hq E. specialize (Hq st). rewrite E in Hq. exact Hq. Qed.

(** One turn of the self-test loop prints one verdict: whether the hash of
    the test answer is the stored hash of that slot. *)
Lemma test_answer_ok w h i ans st u st' :
  test_answer w h i ans st = (Ok u, st') ->
  exists stdout test_hash stored after,
    run w (to_cairo_string_argv ans) = Exited 0 stdout /\
    starkli_pedersen w (Py.strip stdout) (Py.str (Z.of_nat i)) = Ok test_hash /\
    nth_error (answer_hashes h) i = Some stored /\
    console st' = (console st ++ [Marked "  " (String.eqb test_hash stored) after])%list.
Proof.
  unfold test_answer. intro H.
  apply bind_ok in H. destruct H as ([f t] & s1 & Hs & H).
  apply salted_hash_ok in Hs. destruct Hs as (out & Hrun & -> & Ht & ->).
  apply bind_ok in H. destruct H as (stored & s2 & Hi & H).
  apply index_ok in Hi. destruct Hi as (Hi & ->).
  apply print_ok_console in H.
  exists out, t, stored. eexists. repeat split; eauto.
Qed.

Lemma test_hash_verification_ok w h st st' :
  test_hash_verification w h st = (Ok tt, st') ->
  exists o0 o1 o2 t0 t1 t2 s0 s1 s2 ls,
    run w (to_cairo_string_argv "denis") = Exited 0 o0 /\
    run w (to_cairo_string_argv "2012") = Exited 0 o1 /\
    run w (to_cairo_string_argv "finney") = Exited 0 o2 /\
    starkli_pedersen w (Py.strip o0) "0" = Ok t0 /\
    starkli_pedersen w (Py.strip o1) "1" = Ok t1 /\
    starkli_pedersen w (Py.strip o2) "2" = Ok t2 /\
    nth_error (answer_hashes h) 0 = Some s0 /\
    nth_error (answer_hashes h) 1 = Some s1 /\
    nth_error (answer_hashes h) 2 = Some s2 /\
    console st' = (console st ++ ls)%list /\
    verdicts ls = [String.eqb t0 s0; String.eqb t1 s1; String.eqb t2 s2].
Proof.
  unfold test_hash_verification. intro H.
  apply bind_ok in H. destruct H as (u & a1 & Hb & H).
  apply (quiet_run _ _ _ _ (quiet_banner _ _)) in Hb. destruct Hb as (lb & Eb & Vb).
  apply bind_ok in H. destruct H as (u0 & a2 & Hp & H).
  apply print_ok_console in Hp.
  unfold test_answers in H. simpl for_enumerate in H.
  apply bind_ok in H. destruct H as (u1 & a3 & H0 & H).
  apply test_answer_ok in H0.
  destruct H0 as (o0 & t0 & s0 & after0 & R0 & P0 & N0 & C0).
  apply bind_ok in H. destruct H as (u2 & a4 & H1 & H).
  apply test_answer_ok in H1.
  destruct H1 as (o1 & t1 & s1 & after1 & R1 & P1 & N1 & C1).
  apply bind_ok in H. destruct H as (u3 & a5 & H2 & H).
  apply test_answer_ok in H2.
  destruct H2 as (o2 & t2 & s2 & after2 & R2 & P2 & N2 & C2).
  injection H as <-.
  exists o0, o1, o2, t0, t1, t2, s0, s1, s2.
  eexists. repeat split; try eassumption.
  - rewrite C2, C1, C0, Hp, Eb, <- !app_assoc. reflexivity.
  - rewrite !verdicts_app, Vb. reflexivity.
Qed.

(** C10: the self-test hashes ["denis"] at slot 0 and compares it with the
    stored commitment of ["Denis Guedj"], whose canonical text is
    ["denis guedj"]; it hashes ["2012"] and ["finney"] at slots 1 and 2,
    which are the canonical texts of the stored answers. So in every
    completed run on the configured answers the three verdicts are: whether
    the two slot-0 hashes are equal, then two matches; the first verdict is a
    mismatch whenever the two slot-0 hashes differ. *)
Theorem self_test_verdicts (w : world) (st : state) :
  setup w user_config initial = (Ok tt, st) ->
  exists o_test o_stored h_test h_stored,
    run w (to_cairo_string_argv "denis") = Exited 0 o_test /\
    run w (to_cairo_string_argv "denis guedj") = Exited 0 o_stored /\
    starkli_pedersen w (Py.strip o_test) "0" = Ok h_test /\
    starkli_pedersen w (Py.strip o_stored) "0" = Ok h_stored /\
    verdicts (console st) = [String.eqb h_test h_stored; true; true] /\
    (h_test <> h_stored -> verdicts (console st) = [false; true; true]).
Proof.
  unfold setup. intro H.
  apply bind_ok in H. destruct H as (h & a1 & Hh & H).
  pose proof (quiet_run _ _ _ _ (quiet_calculate_hashes _ _) Hh) as (l1 & E1 & V1).
  apply calculate_hashes_ok in Hh.
  destruct Hh as (out & mk & ci & _ & _ & Hcomm & _).
  apply bind_ok in H. destruct H as (u2 & a2 & Hd & H).
  apply (quiet_run _ _ _ _ (quiet_deploy_commands _ _ _)) in Hd.
  destruct Hd as (l2 & E2 & V2).
  apply bind_ok in H. destruct H as (u3 & a3 & Hf & H).
  apply (quiet_run _ _ _ _ (quiet_frontend_configuration _ _ _)) in Hf.
  destruct Hf as (l3 & E3 & V3).
  apply bind_ok in H. destruct H as (u4 & a4 & Ht & H).
  destruct u4.
  apply test_hash_verification_ok in Ht.
  destruct Ht as (o0 & o1 & o2 & t0 & t1 & t2 & s0 & s1 & s2 & l4 &
                  R0 & R1 & R2 & P0 & P1 & P2 & N0 & N1 & N2 & E4 & V4).
  apply (quiet_run _ _ _ _ (quiet_recovery_test_script _ _)) in H.
  destruct H as (l5 & E5 & V5).
  assert (V : verdicts (console st) =
              [String.eqb t0 s0; String.eqb t1 s1; String.eqb t2 s2]).
  { rewrite E5, E4, E3, E2, E1. simpl console.
    rewrite !verdicts_app, V1, V2, V3, V4, V5. reflexivity. }
  simpl ANSWERS in Hcomm.
  inversion Hcomm as [| i0 x0 r0 c0 g0 fs0 hs0 Q0 G0 Hc1]; subst.
  inversion Hc1 as [| i1 x1 r1 c1 g1 fs1 hs1 Q1 G1 Hc2]; subst.
  inversion Hc2 as [| i2 x2 r2 c2 g2 fs2 hs2 Q2 G2 Hc3]; subst.
  inversion Hc3; subst.
  match goal with HA : _ = answer_hashes h |- _ => rewrite <- HA in N0, N1, N2 end.
  simpl in N0, N1, N2.
  injection N0 as <-. injection N1 as <-. injection N2 as <-.
  change (normalize "Denis Guedj") with "denis guedj" in Q0.
  change (normalize "2012") with "2012" in Q1.
  change (normalize "Finney") with "finney" in Q2.
  rewrite R1 in Q1. injection Q1 as <-.
  rewrite R2 in Q2. injection Q2 as <-.
  change (Py.str (Z.of_nat 0)) with "0" in G0.
  change (Py.str (Z.of_nat 1)) with "1" in G1.
  change (Py.str (Z.of_nat 2)) with "2" in G2.
  rewrite P1 in G1. injection G1 as <-.
  rewrite P2 in G2. injection G2 as <-.
  rewrite !String.eqb_refl in V.
  exists o0, c0, t0, g0. repeat split; try assumption.
  intro Hne. rewrite V. apply String.eqb_neq in Hne. rewrite Hne. reflexivity.
Qed.

Lemma self_test_verdicts_witness :
  exists st,
    setup world_without_pedersen user_config initial = (Ok tt, st) /\
    verdicts (console st) = [false; true; true].
Proof.
  eexists.
  assert (E : setup world_without_pedersen user_config initial =
              (Ok tt, snd (setup world_without_pedersen user_config initial)))
    by (vm_compute; reflexivity).
  split; [exact E |].
  destruct (self_test_verdicts _ _ E) as (o1 & o2 & h1 & h2 & R1 & R2 & P1 & P2 & _ & V).
  apply V.
  vm_compute in R1. injection R1 as <-.
  vm_compute in R2. injection R2 as <-.
  vm_compute in P1. injection P1 as <-.
  vm_compute in P2. injection P2 as <-.
  discriminate.
Defined.

(** ** The fallback hash as a number *)

Lemma from_bytes_big_bound (b : list Z) :
  Forall (fun x => 0 <= x < 256) b ->
  forall acc, 0 <= acc ->
    0 <= fold_left (fun a x => a * 256 + x) b acc
      < (acc + 1) * 256 ^ Z.of_nat (List.length b).
Proof.
  induction 1 as [| x b Hx Hb IH]; intros acc Hacc; simpl fold_left.
  - simpl. lia.
  - specialize (IH (acc * 256 + x) ltac:(lia)).
    change (List.length (x :: b)) with (S (List.length b)).
    rewrite Nat2Z.inj_succ, Z.pow_succ_r by lia.
    assert (0 < 256 ^ Z.of_nat (List.length b)) by (apply Z.pow_pos_nonneg; lia).
    nia.
Qed.

Lemma be_bytes_range (n : nat) (x : Z) :
  Forall (fun b => 0 <= b < 256) (SHA256.be_bytes n x).
Proof.
  induction n as [| n IH]; simpl; constructor; [| exact IH].
  change 255 with (Z.ones 8). rewrite Z.land_ones by lia.
  apply Z.mod_pos_bound. reflexivity.
Qed.

Lemma digest_range (msg : list Z) :
  Forall (fun b => 0 <= b < 256) (SHA256.digest msg).
Proof.
  unfold SHA256.digest.
  generalize (SHA256.blocks
    (List.length (SHA256.to_words (List.length (SHA256.pad msg)) (SHA256.pad msg)))
    SHA256.H0 (SHA256.to_words (List.length (SHA256.pad msg)) (SHA256.pad msg))).
  intro ws. induction ws as [| x ws IH]; [constructor |].
  change (flat_map (SHA256.be_bytes 4) (x :: ws))
    with (SHA256.be_bytes 4 x ++ flat_map (SHA256.be_bytes 4) ws)%list.
  apply Forall_app. split; [apply be_bytes_range | exact IH].
Qed.

Lemma Forall_firstn_range (n : nat) (l : list Z) :
  Forall (fun b => 0 <= b < 256) l -> Forall (fun b => 0 <= b < 256) (firstn n l).
Proof.
  intro H. revert n. induction H as [| x l Hx Hl IH]; intros [| n]; simpl;
    constructor; auto.
Qed.

(** X5: the fallback of the pairwise hash is always the hexadecimal text of
    a number below [2^248], and [int(., 16)] reads that number back; so a
    combined hash that comes from the fallback never makes the script fail
    at [int(combined_hash, 16)]. *)
Theorem sha256_fallback_is_felt (a b : string) :
  exists n,
    sha256_fallback a b = Py.hex n /\
    Py.int16 (sha256_fallback a b) = Some n /\
    0 <= n < 2 ^ 248.
Proof.
  unfold sha256_fallback.
  set (bytes := firstn 31 (SHA256.digest (Py.encode (a ++ b)))).
  exists (Py.from_bytes_big bytes). split; [reflexivity |].
  split; [apply int16_hex |].
  assert (Hr : Forall (fun x => 0 <= x < 256) bytes)
    by (apply Forall_firstn_range, digest_range).
  pose proof (from_bytes_big_bound bytes Hr 0 ltac:(lia)) as Hb.
  assert (Hlen : (List.length bytes <= 31)%nat) by apply firstn_le_length.
  unfold Py.from_bytes_big.
  assert (256 ^ Z.of_nat (List.length bytes) <= 256 ^ 31)
    by (apply Z.pow_le_mono_r; lia).
  change (2 ^ 248) with (256 ^ 31). lia.
Qed.

(** ** The encrypted key *)

Lemma encrypted_key_decrypts_witness :
  exists h st',
    calculate_hashes world_without_pedersen user_config initial = (Ok h, st') /\
    exists k m e,
      Py.int16 (MASTER_KEY user_config) = Some k /\
      Py.int16 (combined h) = Some m /\
      Py.int16 (encrypted_key h) = Some e /\
      e = encrypt k m /\
      decrypt e m = k.
Proof.
  eexists. eexists. split.
  - vm_compute. reflexivity.
  - eapply (encrypted_key_decrypts world_without_pedersen user_config initial).
    vm_compute. reflexivity.
Defined.

(** ** White space around an answer *)

Lemma lower_append (a b : string) : Py.lower (a ++ b) = Py.lower a ++ Py.lower b.
Proof. induction a as [| x a IH]; simpl; [reflexivity | rewrite IH; reflexivity]. Qed.

Lemma blank_lower (p : string) : blank (Py.lower p) = blank p.
Proof.
  induction p as [| x p IH]; simpl; [reflexivity |].
  rewrite isspace_lower_char, IH. reflexivity.
Qed.

Lemma lstrip_blank (p : string) : blank p = true -> Py.lstrip p = EmptyString.
Proof.
  induction p as [| x p IH]; simpl; [reflexivity |].
  intro H. apply andb_true_iff in H. destruct H as (Hx & Hp).
  rewrite Hx. exact (IH Hp).
Qed.

Lemma rstrip_blank (q : string) : blank q = true -> Py.rstrip q = EmptyString.
Proof.
  induction q as [| x q IH]; simpl; [reflexivity |].
  intro H. apply andb_true_iff in H. destruct H as (Hx & Hq).
  rewrite (IH Hq), Hx. reflexivity.
Qed.

Lemma lstrip_blank_append (p s : string) :
  blank p = true -> Py.lstrip (p ++ s) = Py.lstrip s.
Proof.
  induction p as [| x p IH]; simpl; [reflexivity |].
  intro H. apply andb_true_iff in H. destruct H as (Hx & Hp).
  rewrite Hx. exact (IH Hp).
Qed.

Lemma rstrip_append_blank (s q : string) :
  blank q = true -> Py.rstrip (s ++ q) = Py.rstrip s.
Proof.
  intro Hq. induction s as [| x s IH]; simpl.
  - exact (rstrip_blank q Hq).
  - rewrite IH. reflexivity.
Qed.

Lemma lstrip_append (x q : string) :
  Py.lstrip (x ++ q) = if blank x then Py.lstrip q else Py.lstrip x ++ q.
Proof.
  induction x as [| c x IH]; simpl; [reflexivity |].
  destruct (Py.isspace c); simpl; [exact IH | reflexivity].
Qed.

Lemma strip_blanks_around (p x q : string) :
  blank p = true -> blank q = true -> Py.strip (p ++ x ++ q) = Py.strip x.
Proof.
  intros Hp Hq. unfold Py.strip.
  rewrite (lstrip_blank_append p _ Hp), lstrip_append.
  destruct (blank x) eqn:Hx.
  - rewrite (lstrip_blank q Hq), (lstrip_blank x Hx). reflexivity.
  - apply rstrip_append_blank. exact Hq.
Qed.

(** X7: white space around an answer and the case of its letters never
    reach the commitment: for every answer [x], all-blank texts [p] and [q],
    slot [i] and world [w], the script commits [p ++ x ++ q] exactly as it
    commits [x], and commits the lowercased answer exactly as the answer. *)
Theorem commitment_ignores_surrounding_blanks (w : world) (i : nat) (p x q : string) :
  blank p = true ->
  blank q = true ->
  normalize (p ++ x ++ q) = normalize x /\
  answer_hash w i (p ++ x ++ q) = answer_hash w i x /\
  answer_hash w i (Py.lower x) = answer_hash w i x.
Proof.
  intros Hp Hq.
  assert (E : normalize (p ++ x ++ q) = normalize x).
  { unfold normalize. rewrite !lower_append.
    apply strip_blanks_around; rewrite blank_lower; assumption. }
  split; [exact E |]. split.
  - apply answer_hash_normalize. exact E.
  - apply answer_hash_normalize. unfold normalize. rewrite lower_idem. reflexivity.
Qed.

Lemma commitment_ignores_surrounding_blanks_witness :
  blank (" " ++ nl) = true /\
  blank nl = true /\
  normalize ((" " ++ nl) ++ "Satoshi" ++ nl) = normalize "Satoshi" /\
  answer_hash symbolic_world 1 ((" " ++ nl) ++ "Satoshi" ++ nl) =
    answer_hash symbolic_world 1 "Satoshi" /\
  answer_hash symbolic_world 1 (Py.lower "Satoshi") =
    answer_hash symbolic_world 1 "Satoshi".
Proof.
  assert (Hp : blank (" " ++ nl) = true) by reflexivity.
  assert (Hq : blank nl = true) by reflexivity.
  split; [exact Hp | split; [exact Hq |]].
  exact (commitment_ignores_surrounding_blanks symbolic_world 1 _ "Satoshi" _ Hp Hq).
Defined.

(** ** Slot numbers on the fallback path *)

Lemma append_last_inj (f f' : string) (c d : ascii) :
  f ++ String c EmptyString = f' ++ String d EmptyString -> f = f' /\ c = d.
Proof.
  intro H. apply (f_equal list_ascii_of_string) in H.
  rewrite !list_ascii_of_string_app in H. simpl in H.
  apply app_inj_tail in H. destruct H as (H & ->). split; [| reflexivity].
  rewrite <- (string_of_list_ascii_of_string f), <- (string_of_list_ascii_of_string f').
  rewrite H. reflexivity.
Qed.

Lemma str_digit (i : nat) :
  (i < 10)%nat ->
  Py.str (Z.of_nat i) = String (ascii_of_nat (48 + i)) EmptyString.
Proof.
  intro H. do 10 (destruct i as [| i]; [reflexivity |]). lia.
Qed.

(** X9: the fallback hashes the felt and the salt put side by side with
    nothing between them. For slots below ten that text still determines
    both: if the felt [f] with slot [i] and the felt [f'] with slot [j] give
    the same text to hash, then [f = f'] and [i = j]. From slot ten on it
    does not: felt [0x1] at slot 10 and felt [0x11] at slot 0 are hashed as
    one text, and so have one fallback commitment. *)
Theorem fallback_text_determines_slot (f f' : string) (i j : nat) :
  (i < 10)%nat ->
  (j < 10)%nat ->
  f ++ Py.str (Z.of_nat i) = f' ++ Py.str (Z.of_nat j) ->
  (f = f' /\ i = j) /\
  sha256_fallback "0x1" (Py.str (Z.of_nat 10)) = sha256_fallback "0x11" (Py.str (Z.of_nat 0)).
Proof.
  intros Hi Hj H. split; [| reflexivity].
  rewrite (str_digit i Hi), (str_digit j Hj) in H.
  apply append_last_inj in H. destruct H as (Hf & Hc).
  split; [exact Hf |].
  apply (f_equal nat_of_ascii) in Hc.
  rewrite !nat_ascii_embedding in Hc by lia. lia.
Qed.

Lemma fallback_text_determines_slot_witness :
  "0x66696e6e6579" ++ Py.str (Z.of_nat 2) = "0x66696e6e6579" ++ Py.str (Z.of_nat 2) /\
  ("0x66696e6e6579" = "0x66696e6e6579" /\ 2%nat = 2%nat).
Proof.
  split; [reflexivity |].
  refine (proj1 (fallback_text_determines_slot "0x66696e6e6579" "0x66696e6e6579" 2 2
                   _ _ eq_refl)); lia.
Defined.

(** ** Answers beyond the third *)

Lemma committed_firstn (w : world) (i : nat) (answers felts hs : list string) :
  committed w i answers felts hs ->
  forall answers' felts' hs' n,
    committed w i answers' felts' hs' ->
    firstn n answers = firstn n answers' ->
    firstn n hs = firstn n hs'.
Proof.
  induction 1 as [| i a rest out h felts hs Hrun Hh Hrest IH];
    intros answers' felts' hs' n H' E.
  - destruct n as [| n]; [reflexivity |].
    inversion H'; subst; [reflexivity | discriminate E].
  - destruct n as [| n]; [reflexivity |].
    inversion H' as [| i' a' rest' out' h' felts'' hs'' Hrun' Hh' Hrest']; subst;
      [discriminate E |].
    simpl in E. injection E as <- E.
    rewrite Hrun in Hrun'. injection Hrun' as <-.
    rewrite Hh in Hh'. injection Hh' as <-.
    simpl. f_equal. exact (IH _ _ _ _ Hrest' E).
Qed.

(** X8: only the master key and the first three answers enter the combined
    hash and the encrypted key: two configuration blocks with the same
    master key and the same first three answers, whatever their usernames,
    durations and further answers, give the same combined hash and the same
    encrypted key whenever both hash computations complete. *)
Theorem key_depends_on_first_three_answers (w : world) (c c' : config)
    (st st1 st' st1' : state) (h h' : hashes) :
  MASTER_KEY c = MASTER_KEY c' ->
  firstn 3 (ANSWERS c) = firstn 3 (ANSWERS c') ->
  calculate_hashes w c st = (Ok h, st1) ->
  calculate_hashes w c' st' = (Ok h', st1') ->
  combined h = combined h' /\
  encrypted_key h = encrypted_key h' /\
  firstn 3 (answer_hashes h) = firstn 3 (answer_hashes h').
Proof.
  intros Hk Ha H H'.
  apply calculate_hashes_ok in H.
  destruct H as (out & k & m & _ & _ & Hcomm & Hcomb & Ek & Em & Ee).
  apply calculate_hashes_ok in H'.
  destruct H' as (out' & k' & m' & _ & _ & Hcomm' & Hcomb' & Ek' & Em' & Ee').
  pose proof (committed_firstn _ _ _ _ _ Hcomm _ _ _ 3%nat Hcomm' Ha) as E3.
  apply combined_hash_ok in Hcomb.
  destruct Hcomb as (c0 & c1 & c2 & rest & Eh & Hfold & _).
  apply combined_hash_ok in Hcomb'.
  destruct Hcomb' as (d0 & d1 & d2 & rest' & Eh' & Hfold' & _).
  rewrite Eh, Eh' in E3. simpl in E3. injection E3 as <- <- <-.
  rewrite Hfold in Hfold'. injection Hfold' as Ec.
  assert (Em2 : m = m') by congruence.
  assert (Ek2 : k = k') by congruence.
  repeat split.
  - exact Ec.
  - rewrite Ee, Ee', Em2, Ek2. reflexivity.
  - rewrite Eh, Eh'. reflexivity.
Qed.

Lemma key_depends_on_first_three_answers_witness :
  exists h st1 h' st1',
    calculate_hashes world_without_pedersen user_config initial = (Ok h, st1) /\
    calculate_hashes world_without_pedersen four_answers_config initial = (Ok h', st1') /\
    combined h = combined h' /\
    encrypted_key h = encrypted_key h' /\
    firstn 3 (answer_hashes h) = firstn 3 (answer_hashes h').
Proof.
  do 4 eexists.
  assert (H : calculate_hashes world_without_pedersen user_config initial =
              (fst (calculate_hashes world_without_pedersen user_config initial),
               snd (calculate_hashes world_without_pedersen user_config initial)))
    by apply surjective_pairing.
  assert (H' : calculate_hashes world_without_pedersen four_answers_config initial =
               (fst (calculate_hashes world_without_pedersen four_answers_config initial),
                snd (calculate_hashes world_without_pedersen four_answers_config initial)))
    by apply surjective_pairing.
  split; [vm_compute; reflexivity |].
  split; [vm_compute; reflexivity |].
  eapply (key_depends_on_first_three_answers world_without_pedersen
            user_config four_answers_config initial _ initial _);
    [reflexivity | reflexivity | vm_compute; reflexivity | vm_compute; reflexivity].
Defined.

(** ** Malformed configuration blocks *)

(** X1: with fewer than three answers the script cannot finish: every run
    ends with an exception, and no file is written. *)
Theorem short_answers_abort (w : world) (c : config) (r : result unit) (st : state) :
  (List.length (ANSWERS c) < 3)%nat ->
  setup w c initial = (r, st) ->
  (exists e, r = Raise e) /\ files st = [].
Proof.
  intros Hlen H. apply setup_files in H.
  destruct H as [(F & He) | (h & st1 & a0 & a1 & a2 & content & _ & _ & _ & E2 & _)].
  - split; assumption.
  - exfalso. assert (Hn : nth_error (ANSWERS c) 2 <> None) by congruence.
    apply nth_error_Some in Hn. lia.
Qed.

Lemma short_answers_abort_witness :
  (List.length (ANSWERS two_answers_config) < 3)%nat /\
  exists r st,
    setup world_without_pedersen two_answers_config initial = (r, st) /\
    (exists e, r = Raise e) /\ files st = [].
Proof.
  assert (Hlen : (List.length (ANSWERS two_answers_config) < 3)%nat) by (simpl; lia).
  split; [exact Hlen |].
  exists (fst (setup world_without_pedersen two_answers_config initial)),
         (snd (setup world_without_pedersen two_answers_config initial)).
  assert (E : setup world_without_pedersen two_answers_config initial =
              (fst (setup world_without_pedersen two_answers_config initial),
               snd (setup world_without_pedersen two_answers_config initial)))
    by apply surjective_pairing.
  split; [exact E |].
  exact (short_answers_abort _ _ _ _ Hlen E).
Defined.

(** X2: a master key that [int(., 16)] does not read stops the script with
    [ValueError] before anything else happens: nothing is printed, nothing is
    written, and the outcome is the same in every world. *)
Theorem invalid_master_key_aborts_first (w : world) (c : config) (st : state) :
  Py.int16 (MASTER_KEY c) = None ->
  setup w c st = (Raise ValueError, st).
Proof.
  intro H. unfold setup. apply bind_raise.
  unfold calculate_hashes. apply bind_raise.
  unfold int_base16. rewrite H. reflexivity.
Qed.

Lemma invalid_master_key_aborts_first_witness :
  Py.int16 (MASTER_KEY bad_key_config) = None /\
  setup world_without_pedersen bad_key_config initial = (Raise ValueError, initial).
Proof.
  assert (H : Py.int16 (MASTER_KEY bad_key_config) = None) by (vm_compute; reflexivity).
  split; [exact H |].
  exact (invalid_master_key_aborts_first world_without_pedersen bad_key_config initial H).
Defined.

(** ** A run without the executable *)

Lemma bind_then {A B} (m : M A) (f : A -> M B) st a st' :
  m st = (Ok a, st') -> bind m f st = f a st'.
Proof. unfold bind. intros ->. reflexivity. Qed.

(** X11: when the executable cannot be launched for the felt of the
    username, the script ends with the uncaught [OSError], not with exit
    status 1: no file is written and no error line is printed. *)
Theorem missing_starkli_aborts (w : world) (c : config) (k : Z) :
  Py.int16 (MASTER_KEY c) = Some k ->
  run w (to_cairo_string_argv (normalize (USERNAME c))) = LaunchFailed ->
  exists st,
    setup w c initial = (Raise OSError, st) /\
    files st = [] /\
    Forall (fun l => exists s, l = Text s) (console st).
Proof.
  intros Hk Hrun. eexists. split; [| split].
  - unfold setup. apply bind_raise.
    unfold calculate_hashes, int_base16. rewrite Hk.
    unfold starkli_to_felt. rewrite Hrun.
    reflexivity.
  - reflexivity.
  - simpl. repeat constructor; eexists; reflexivity.
Qed.

Lemma missing_starkli_aborts_witness :
  exists st,
    setup world_without_starkli user_config initial = (Raise OSError, st) /\
    files st = [] /\
    Forall (fun l => exists s, l = Text s) (console st).
Proof.
  refine (missing_starkli_aborts world_without_starkli user_config 1311768467294899695 _ _).
  - vm_compute. reflexivity.
  - reflexivity.
Defined.

(** ** How a run can end *)



Lemma print_completes w l st :
  printable (stdout_encodes w) l = true ->
  print w l st = (Ok tt, {| console := (console st ++ [l])%list; files := files st |}).
Proof. intro H. unfold print. rewrite H. reflexivity. Qed.

Lemma bind_print {B} w (l : line) (f : unit -> M B) st :
  printable (stdout_encodes w) l = true ->
  bind (print w l) f st =
    f tt {| console := (console st ++ [l])%list; files := files st |}.
Proof. intro H. unfold bind. rewrite (print_completes w l st H). reflexivity. Qed.

Lemma bind_bind {A B C} (m : M A) (f : A -> M B) (g : B -> M C) st :
  bind (bind m f) g st = bind m (fun x => bind (f x) g) st.
Proof. unfold bind. destruct (m st) as [[a | e] st1]; reflexivity. Qed.








(** ** A failure in the self-test *)

Lemma encodable_everything (enc : Z -> bool) (s : string) :
  (forall cp, enc cp = true) -> encodable enc s = true.
Proof.
  intro H. induction s as [| c s IH]; simpl; [reflexivity |].
  unfold can_encode. rewrite H, IH, orb_true_r. reflexivity.
Qed.

Lemma repr_encodable_everything (enc : Z -> bool) (s : string) :
  (forall cp, enc cp = true) -> repr_encodable enc s = true.
Proof.
  intro H. induction s as [| c s IH]; simpl; [reflexivity |].
  unfold can_encode. rewrite H, IH, !orb_true_r. reflexivity.
Qed.

Lemma printable_everything w l :
  encodes_everything w -> printable (stdout_encodes w) l = true.
Proof.
  intro H.
  assert (He : forall cp, stdout_encodes w cp = true) by (intro cp; apply H).
  destruct l as [s | before ok after | argv rc]; simpl.
  - apply encodable_everything, He.
  - rewrite !(encodable_everything _ _ He), He. reflexivity.
  - induction argv as [| a argv IH]; simpl; [reflexivity |].
    rewrite (repr_encodable_everything _ _ He), IH. reflexivity.
Qed.

Lemma bind_write_file {B} w path content (f : unit -> M B) st :
  encodes_everything w ->
  can_open w path = true ->
  bind (write_file w path content) f st =
    f tt {| console := console st; files := (files st ++ [(path, content)])%list |}.
Proof.
  intros H Hopen. unfold bind, write_file. rewrite Hopen.
  rewrite encodable_everything by (intro cp; apply H). reflexivity.
Qed.

Lemma bind_ret {A B} (a : A) (f : A -> M B) st : bind (ret a) f st = f a st.
Proof. reflexivity. Qed.

Ltac run_prints Henc :=
  repeat first
    [ rewrite bind_bind
    | rewrite bind_print by (apply printable_everything; exact Henc)
    | rewrite bind_ret ].

Lemma committed_length w i answers felts hs :
  committed w i answers felts hs -> List.length hs = List.length answers.
Proof. induction 1; simpl; congruence. Qed.

Lemma deploy_commands_ok w c h st c0 c1 c2 rest :
  encodes_everything w ->
  answer_hashes h = c0 :: c1 :: c2 :: rest ->
  exists st', deploy_commands w c h st = (Ok tt, st') /\ files st' = files st.
Proof.
  intros Henc E. unfold deploy_commands, banner, index. rewrite E. cbn [nth_error].
  run_prints Henc.
  rewrite print_completes by (apply printable_everything; exact Henc).
  eexists. split; reflexivity.
Qed.

Lemma frontend_configuration_ok w c h st a0 a1 a2 rest :
  encodes_everything w ->
  ANSWERS c = a0 :: a1 :: a2 :: rest ->
  can_open w "frontend/config.js" = true ->
  exists st',
    frontend_configuration w c h st = (Ok tt, st') /\
    files st' =
      (files st ++ [("frontend/config.js",
                     env_content (USERNAME c) (username_hash h) (SONG_DURATION c)
                       a0 a1 a2)])%list.
Proof.
  intros Henc E Hopen. unfold frontend_configuration, banner, index.
  rewrite E. cbn [nth_error].
  run_prints Henc.
  rewrite (bind_write_file w _ _ _ _ Henc Hopen).
  rewrite print_completes by (apply printable_everything; exact Henc).
  eexists. split; reflexivity.
Qed.

Lemma test_hash_verification_first_fails w h st returncode stdout :
  encodes_everything w ->
  run w (to_cairo_string_argv "denis") = Exited returncode stdout ->
  returncode <> 0 ->
  exists st',
    test_hash_verification w h st = (Raise (SystemExit 1), st') /\
    files st' = files st /\
    verdicts (console st') = verdicts (console st).
Proof.
  intros Henc Hrun Hrc.
  unfold test_hash_verification, test_answers, banner.
  cbn [for_enumerate].
  unfold test_answer at 1. unfold salted_hash at 1. unfold starkli_to_felt at 1.
  rewrite Hrun.
  destruct (Z.eqb_spec returncode 0) as [-> | _]; [contradiction |].
  run_prints Henc.
  eexists. split; [reflexivity |]. split; [reflexivity |].
  simpl console. rewrite !verdicts_app. simpl. rewrite !app_nil_r. reflexivity.
Qed.

(** X4: files are not written all at once. When the hash computation has
    completed, the configuration file can be written, and the standard
    output and the files have every character, but the felt conversion of
    the first test answer fails, the script exits with status 1 in the
    middle of the self-test: the configuration file stays written, the test
    script is never written, and no verdict is printed. *)
Theorem self_test_failure_leaves_config (w : world) (c : config) (h : hashes)
    (st1 : state) (returncode : Z) (stdout : string) :
  encodes_everything w ->
  calculate_hashes w c initial = (Ok h, st1) ->
  can_open w "frontend/config.js" = true ->
  run w (to_cairo_string_argv "denis") = Exited returncode stdout ->
  returncode <> 0 ->
  exists st content,
    setup w c initial = (Raise (SystemExit 1), st) /\
    files st = [("frontend/config.js", content)] /\
    verdicts (console st) = [].
Proof.
  intros Henc Hcalc Hopen Hrun Hrc.
  pose proof (keeps_run _ _ _ _ (keeps_calculate_hashes _ _) Hcalc) as F1.
  pose proof (quiet_run _ _ _ _ (quiet_calculate_hashes _ _) Hcalc) as (l1 & C1 & V1).
  pose proof (calculate_hashes_ok _ _ _ _ _ Hcalc)
    as (out & k & m & _ & _ & Hcomm & Hcomb & _).
  apply combined_hash_ok in Hcomb.
  destruct Hcomb as (c0 & c1 & c2 & rest & EA & _ & _).
  pose proof (committed_length _ _ _ _ _ Hcomm) as Hlen.
  rewrite EA in Hlen.
  destruct (ANSWERS c) as [| a0 [| a1 [| a2 arest]]] eqn:EAns; try discriminate Hlen.
  destruct (deploy_commands_ok w c h st1 _ _ _ _ Henc EA) as (s2 & Hd & F2).
  pose proof (quiet_run _ _ _ _ (quiet_deploy_commands _ _ _) Hd) as (l2 & C2 & V2).
  destruct (frontend_configuration_ok w c h s2 _ _ _ _ Henc EAns Hopen) as (s3 & Hf & F3).
  pose proof (quiet_run _ _ _ _ (quiet_frontend_configuration _ _ _) Hf) as (l3 & C3 & V3).
  destruct (test_hash_verification_first_fails w h s3 _ _ Henc Hrun Hrc)
    as (s4 & Ht & F4 & V4).
  exists s4. eexists. split; [| split].
  - unfold setup.
    rewrite (bind_then _ _ _ _ _ Hcalc), (bind_then _ _ _ _ _ Hd), (bind_then _ _ _ _ _ Hf).
    apply bind_raise. exact Ht.
  - rewrite F4, F3, F2, F1. reflexivity.
  - rewrite V4, C3, C2, C1. simpl console.
    rewrite !verdicts_app, V1, V2, V3. reflexivity.
Qed.

Lemma self_test_failure_leaves_config_witness :
  encodes_everything world_rejecting_denis /\
  exists st content,
    setup world_rejecting_denis user_config initial = (Raise (SystemExit 1), st) /\
    files st = [("frontend/config.js", content)] /\
    verdicts (console st) = [].
Proof.
  assert (Henc : encodes_everything world_rejecting_denis)
    by (intro cp; split; reflexivity).
  split; [exact Henc |].
  refine (self_test_failure_leaves_config world_rejecting_denis user_config
            (match fst (calculate_hashes world_rejecting_denis user_config initial) with
             | Ok h => h
             | Raise _ => {| username_hash := ""; answer_felts := []; answer_hashes := [];
                             combined := ""; encrypted_key := "" |}
             end)
            (snd (calculate_hashes world_rejecting_denis user_config initial))
            1 "" Henc _ _ _ _).
  - vm_compute. reflexivity.
  - reflexivity.
  - reflexivity.
  - discriminate.
Defined.

(** ** A self-test that passes *)

(** X10: the self-test passes exactly on the answers it knows: in every
    completed run on a configuration block whose first three answers have
    the canonical texts [denis], [2012] and [finney], the three verdicts are
    matches. *)
Theorem self_test_passes_on_matching_answers (w : world) (c : config) (st : state) :
  map normalize (firstn 3 (ANSWERS c)) = test_answers ->
  setup w c initial = (Ok tt, st) ->
  verdicts (console st) = [true; true; true].
Proof.
  intros Hmatch H. unfold setup in H.
  apply bind_ok in H. destruct H as (h & a1 & Hh & H).
  pose proof (quiet_run _ _ _ _ (quiet_calculate_hashes _ _) Hh) as (l1 & E1 & V1).
  apply calculate_hashes_ok in Hh.
  destruct Hh as (out & mk & ci & _ & _ & Hcomm & _).
  apply bind_ok in H. destruct H as (u2 & a2 & Hd & H).
  apply (quiet_run _ _ _ _ (quiet_deploy_commands _ _ _)) in Hd.
  destruct Hd as (l2 & E2 & V2).
  apply bind_ok in H. destruct H as (u3 & a3 & Hf & H).
  apply (quiet_run _ _ _ _ (quiet_frontend_configuration _ _ _)) in Hf.
  destruct Hf as (l3 & E3 & V3).
  apply bind_ok in H. destruct H as (u4 & a4 & Ht & H).
  destruct u4.
  apply test_hash_verification_ok in Ht.
  destruct Ht as (o0 & o1 & o2 & t0 & t1 & t2 & s0 & s1 & s2 & l4 &
                  R0 & R1 & R2 & P0 & P1 & P2 & N0 & N1 & N2 & E4 & V4).
  apply (quiet_run _ _ _ _ (quiet_recovery_test_script _ _)) in H.
  destruct H as (l5 & E5 & V5).
  assert (V : verdicts (console st) =
              [String.eqb t0 s0; String.eqb t1 s1; String.eqb t2 s2]).
  { rewrite E5, E4, E3, E2, E1. simpl console.
    rewrite !verdicts_app, V1, V2, V3, V4, V5. reflexivity. }
  destruct (ANSWERS c) as [| x0 [| x1 [| x2 xs]]]; try discriminate Hmatch.
  unfold test_answers in Hmatch. simpl in Hmatch.
  injection Hmatch as M0 M1 M2.
  inversion Hcomm as [| i0 y0 r0 c0 g0 fs0 hs0 Q0 G0 Hc1]; subst.
  inversion Hc1 as [| i1 y1 r1 c1 g1 fs1 hs1 Q1 G1 Hc2]; subst.
  inversion Hc2 as [| i2 y2 r2 c2 g2 fs2 hs2 Q2 G2 Hc3]; subst.
  match goal with HA : _ = answer_hashes h |- _ => rewrite <- HA in N0, N1, N2 end.
  simpl in N0, N1, N2.
  injection N0 as <-. injection N1 as <-. injection N2 as <-.
  rewrite M0, R0 in Q0. injection Q0 as <-.
  rewrite M1, R1 in Q1. injection Q1 as <-.
  rewrite M2, R2 in Q2. injection Q2 as <-.
  change (Py.str (Z.of_nat 0)) with "0" in G0.
  change (Py.str (Z.of_nat 1)) with "1" in G1.
  change (Py.str (Z.of_nat 2)) with "2" in G2.
  rewrite P0 in G0. injection G0 as <-.
  rewrite P1 in G1. injection G1 as <-.
  rewrite P2 in G2. injection G2 as <-.
  rewrite !String.eqb_refl in V. exact V.
Qed.

Lemma self_test_passes_on_matching_answers_witness :
  map normalize (firstn 3 (ANSWERS matching_config)) = test_answers /\
  exists st,
    setup world_without_pedersen matching_config initial = (Ok tt, st) /\
    verdicts (console st) = [true; true; true].
Proof.
  assert (Hm : map normalize (firstn 3 (ANSWERS matching_config)) = test_answers)
    by reflexivity.
  split; [exact Hm |].
  eexists.
  assert (E : setup world_without_pedersen matching_config initial =
              (Ok tt, snd (setup world_without_pedersen matching_config initial)))
    by (vm_compute; reflexivity).
  split; [exact E |].
  exact (self_test_passes_on_matching_answers _ _ _ Hm E).
Defined.


(** ** A run on the fallback hash *)

Lemma uint_no_nul (d : Decimal.uint) :
  has_nul (NilEmpty.string_of_uint d) = false.
Proof. induction d; simpl; auto. Qed.

Lemma str_no_nul (n : Z) : has_nul (Py.str n) = false.
Proof.
  unfold Py.str. destruct (Z.to_int n) as [d | d]; simpl; apply uint_no_nul.
Qed.

Lemma of_pos_no_nul (p : positive) :
  forall rest : string,
    has_nul rest = false -> has_nul (HexString.Raw.of_pos p rest) = false.
Proof.
  revert p. fix IH 1. intros p rest H.
  do 4 try destruct p as [p | p |]; try exact H;
    cbn [HexString.Raw.of_pos]; try (apply IH); exact H.
Qed.

Lemma hex_no_nul (n : Z) : has_nul (Py.hex n) = false.
Proof.
  destruct n as [| p | p]; [reflexivity | |];
    exact (of_pos_no_nul p "" eq_refl).
Qed.

Lemma fallback_no_nul (a b : string) : has_nul (sha256_fallback a b) = false.
Proof. apply hex_no_nul. Qed.

Lemma starkli_pedersen_fallback_on_text w a b :
  pedersen_fails_on_text w -> has_nul a = false -> has_nul b = false ->
  starkli_pedersen w a b = Ok (sha256_fallback a b).
Proof.
  intros Hf Ha Hb. destruct (Hf a b Ha Hb) as (rc & out & Hrun & Hrc).
  unfold starkli_pedersen. rewrite Hrun.
  destruct (Z.eqb_spec rc 0) as [-> | _]; [contradiction | reflexivity].
Qed.

Lemma starkli_to_felt_completes w s st stdout :
  run w (to_cairo_string_argv s) = Exited 0 stdout ->
  starkli_to_felt w s st = (Ok (Py.strip stdout), st).
Proof. intro H. unfold starkli_to_felt. rewrite H. reflexivity. Qed.

Lemma salted_hash_completes w i text st stdout :
  pedersen_fails_on_text w ->
  run w (to_cairo_string_argv text) = Exited 0 stdout ->
  has_nul (Py.strip stdout) = false ->
  salted_hash w i text st =
    (Ok (Py.strip stdout, sha256_fallback (Py.strip stdout) (Py.str (Z.of_nat i))), st).
Proof.
  intros Hf H Hn. unfold salted_hash.
  rewrite (bind_then _ _ _ _ _ (starkli_to_felt_completes w text st stdout H)).
  rewrite (starkli_pedersen_fallback_on_text w _ _ Hf Hn (str_no_nul _)). reflexivity.
Qed.

Lemma answers_loop_completes w answers :
  pedersen_fails_on_text w ->
  encodes_everything w ->
  (forall a, In a answers ->
     exists stdout,
       run w (to_cairo_string_argv (normalize a)) = Exited 0 stdout /\
       has_nul (Py.strip stdout) = false) ->
  forall i felts hs st,
    Forall (fun h => has_nul h = false) hs ->
    exists felts' hs' st',
      answers_loop w i answers felts hs st = (Ok (felts', hs'), st') /\
      List.length hs' = (List.length hs + List.length answers)%nat /\
      Forall (fun h => has_nul h = false) hs'.
Proof.
  intros Hf Henc. induction answers as [| a rest IH]; intros Hconv i felts hs st Hhs.
  - exists felts, hs, st. split; [reflexivity |]. split; [simpl; lia | exact Hhs].
  - destruct (Hconv a (or_introl eq_refl)) as (out & Hrun & Hn).
    simpl answers_loop. unfold answer_hash.
    rewrite (bind_then _ _ _ _ _ (salted_hash_completes w i _ st out Hf Hrun Hn)).
    run_prints Henc.
    edestruct (IH (fun x Hx => Hconv x (or_intror Hx)) (S i)) as (f' & h' & st' & E & L & N).
    2: { exists f', h', st'. split; [exact E |]. split; [| exact N].
         rewrite L. cbn [fst snd]. rewrite length_app. simpl. lia. }
    cbn [fst snd]. apply Forall_app. split; [exact Hhs |].
    constructor; [apply fallback_no_nul | constructor].
Qed.

Lemma int16_fallback (a b : string) :
  exists n, Py.int16 (sha256_fallback a b) = Some n.
Proof. unfold sha256_fallback. eexists. apply int16_hex. Qed.

Lemma combined_hash_fallback w c0 c1 c2 rest st :
  pedersen_fails_on_text w ->
  has_nul c0 = false -> has_nul c1 = false -> has_nul c2 = false ->
  combined_hash w (c0 :: c1 :: c2 :: rest) st =
    (Ok (sha256_fallback (sha256_fallback c0 c1) c2), st).
Proof.
  intros Hf N0 N1 N2. rewrite combined_hash_fold. unfold fold.
  rewrite (starkli_pedersen_fallback_on_text w _ _ Hf N0 N1).
  rewrite (starkli_pedersen_fallback_on_text w _ _ Hf (fallback_no_nul _ _) N2).
  reflexivity.
Qed.

Lemma calculate_hashes_completes w c k :
  pedersen_fails_on_text w ->
  encodes_everything w ->
  Py.int16 (MASTER_KEY c) = Some k ->
  (3 <= List.length (ANSWERS c))%nat ->
  (forall text, In text (USERNAME c :: ANSWERS c) ->
     exists stdout,
       run w (to_cairo_string_argv (normalize text)) = Exited 0 stdout /\
       has_nul (Py.strip stdout) = false) ->
  forall st, exists h st' c0 c1 c2 rest,
    calculate_hashes w c st = (Ok h, st') /\
    answer_hashes h = c0 :: c1 :: c2 :: rest.
Proof.
  intros Hf Henc Hk Hlen Hconv st.
  destruct (Hconv (USERNAME c) (or_introl eq_refl)) as (out & Hu & _).
  unfold calculate_hashes, int_base16. rewrite Hk.
  run_prints Henc.
  rewrite (bind_then _ _ _ _ _ (starkli_to_felt_completes w _ _ out Hu)).
  run_prints Henc.
  edestruct (answers_loop_completes w (ANSWERS c) Hf Henc
               (fun a Ha => Hconv a (or_intror Ha)) 0%nat [] [])
    as (fs & hs & s1 & El & Ll & Nl); [constructor |].
  rewrite (bind_then _ _ _ _ _ El).
  run_prints Henc. cbn [fst snd].
  simpl in Ll.
  destruct hs as [| c0 [| c1 [| c2 rest]]]; simpl in Ll; try lia.
  inversion Nl as [| ? ? N0 Nl1]; subst.
  inversion Nl1 as [| ? ? N1 Nl2]; subst.
  inversion Nl2 as [| ? ? N2 _]; subst.
  rewrite (bind_then _ _ _ _ _ (combined_hash_fallback w c0 c1 c2 rest _ Hf N0 N1 N2)).
  destruct (int16_fallback (sha256_fallback c0 c1) c2) as (m & Em).
  run_prints Henc. rewrite Em.
  run_prints Henc.
  do 6 eexists. split; reflexivity.
Qed.

Lemma test_answer_completes w h i ans st stdout stored :
  pedersen_fails_on_text w ->
  encodes_everything w ->
  run w (to_cairo_string_argv ans) = Exited 0 stdout ->
  has_nul (Py.strip stdout) = false ->
  nth_error (answer_hashes h) i = Some stored ->
  exists st', test_answer w h i ans st = (Ok tt, st') /\ files st' = files st.
Proof.
  intros Hf Henc Hrun Hn Hi. unfold test_answer.
  rewrite (bind_then _ _ _ _ _ (salted_hash_completes w i ans st stdout Hf Hrun Hn)).
  unfold index. rewrite Hi. rewrite bind_ret.
  rewrite print_completes by (apply printable_everything; exact Henc).
  eexists. split; reflexivity.
Qed.

Lemma test_hash_verification_completes w h st c0 c1 c2 rest :
  pedersen_fails_on_text w ->
  encodes_everything w ->
  answer_hashes h = c0 :: c1 :: c2 :: rest ->
  (forall ans, In ans test_answers ->
     exists stdout,
       run w (to_cairo_string_argv ans) = Exited 0 stdout /\
       has_nul (Py.strip stdout) = false) ->
  exists st', test_hash_verification w h st = (Ok tt, st') /\ files st' = files st.
Proof.
  intros Hf Henc EA Hconv. unfold test_hash_verification, banner.
  run_prints Henc.
  unfold test_answers in Hconv |- *. cbn [for_enumerate].
  destruct (Hconv "denis") as (o0 & R0 & M0); [simpl; auto |].
  destruct (Hconv "2012") as (o1 & R1 & M1); [simpl; auto |].
  destruct (Hconv "finney") as (o2 & R2 & M2); [simpl; auto |].
  assert (N0 : nth_error (answer_hashes h) 0 = Some c0) by (rewrite EA; reflexivity).
  assert (N1 : nth_error (answer_hashes h) 1 = Some c1) by (rewrite EA; reflexivity).
  assert (N2 : nth_error (answer_hashes h) 2 = Some c2) by (rewrite EA; reflexivity).
  match goal with
  | |- context [bind (test_answer w h 0 "denis") _ ?s] =>
      destruct (test_answer_completes w h 0 "denis" s o0 c0 Hf Henc R0 M0 N0)
        as (s1 & E1 & F1)
  end.
  rewrite (bind_then _ _ _ _ _ E1).
  destruct (test_answer_completes w h 1 "2012" s1 o1 c1 Hf Henc R1 M1 N1)
    as (s2 & E2 & F2).
  rewrite (bind_then _ _ _ _ _ E2).
  destruct (test_answer_completes w h 2 "finney" s2 o2 c2 Hf Henc R2 M2 N2)
    as (s3 & E3 & F3).
  rewrite (bind_then _ _ _ _ _ E3).
  exists s3. split; [reflexivity |].
  rewrite F3, F2, F1. reflexivity.
Qed.

Lemma recovery_test_script_completes w h st c0 c1 c2 rest :
  encodes_everything w ->
  answer_hashes h = c0 :: c1 :: c2 :: rest ->
  can_open w "scripts/test_recovery.sh" = true ->
  exists st',
    recovery_test_script w h st = (Ok tt, st') /\
    files st' =
      (files st ++ [("scripts/test_recovery.sh",
                     recovery_test (username_hash h) c0 c1 c2)])%list.
Proof.
  intros Henc EA Hopen. unfold recovery_test_script, banner, index.
  rewrite EA. cbn [nth_error].
  run_prints Henc.
  rewrite (bind_write_file w _ _ _ _ Henc Hopen).
  run_prints Henc.
  rewrite print_completes by (apply printable_everything; exact Henc).
  eexists. split; reflexivity.
Qed.

(** X12: a [starkli] without the hash query is enough for the script to run
    to its end. If every hash query on texts without a NUL character fails,
    the standard output and the files have every character, the master key
    is a number, there are at least three answers, the felt conversions of
    the username, of the answers and of the three test answers succeed with
    an output free of NUL, and the two files can be opened, then the run
    ends normally with exactly the two files written. *)
Theorem setup_completes_on_fallback (w : world) (c : config) (k : Z) :
  pedersen_fails_on_text w ->
  encodes_everything w ->
  Py.int16 (MASTER_KEY c) = Some k ->
  (3 <= List.length (ANSWERS c))%nat ->
  (forall text,
     In text (map normalize (USERNAME c :: ANSWERS c) ++ test_answers) ->
     exists stdout,
       run w (to_cairo_string_argv text) = Exited 0 stdout /\
       has_nul (Py.strip stdout) = false) ->
  can_open w "frontend/config.js" = true ->
  can_open w "scripts/test_recovery.sh" = true ->
  exists st,
    setup w c initial = (Ok tt, st) /\
    map fst (files st) = ["frontend/config.js"; "scripts/test_recovery.sh"].
Proof.
  intros Hf Henc Hk Hlen Hconv Ho1 Ho2.
  assert (Hconv1 : forall text, In text (USERNAME c :: ANSWERS c) ->
            exists stdout,
              run w (to_cairo_string_argv (normalize text)) = Exited 0 stdout /\
              has_nul (Py.strip stdout) = false).
  { intros text Hin. apply Hconv. apply in_or_app. left. apply in_map. exact Hin. }
  assert (Hconv2 : forall ans, In ans test_answers ->
            exists stdout,
              run w (to_cairo_string_argv ans) = Exited 0 stdout /\
              has_nul (Py.strip stdout) = false).
  { intros ans Hin. apply Hconv. apply in_or_app. right. exact Hin. }
  destruct (calculate_hashes_completes w c k Hf Henc Hk Hlen Hconv1 initial)
    as (h & s1 & c0 & c1 & c2 & rest & Hcalc & EA).
  pose proof (keeps_run _ _ _ _ (keeps_calculate_hashes _ _) Hcalc) as F1.
  destruct (deploy_commands_ok w c h s1 _ _ _ _ Henc EA) as (s2 & Hd & F2).
  destruct (ANSWERS c) as [| a0 [| a1 [| a2 arest]]] eqn:EAns; simpl in Hlen; try lia.
  destruct (frontend_configuration_ok w c h s2 _ _ _ _ Henc EAns Ho1) as (s3 & Hfr & F3).
  destruct (test_hash_verification_completes w h s3 _ _ _ _ Hf Henc EA Hconv2)
    as (s4 & Ht & F4).
  destruct (recovery_test_script_completes w h s4 _ _ _ _ Henc EA Ho2) as (s5 & Hr & F5).
  exists s5. split.
  - unfold setup.
    rewrite (bind_then _ _ _ _ _ Hcalc), (bind_then _ _ _ _ _ Hd),
            (bind_then _ _ _ _ _ Hfr), (bind_then _ _ _ _ _ Ht).
    exact Hr.
  - rewrite F5, F4, F3, F2, F1. reflexivity.
Qed.

Lemma has_nul_app (s t : string) :
  has_nul (s ++ t) = (has_nul s || has_nul t)%bool.
Proof.
  induction s as [| c s IH]; [reflexivity |].
  change (has_nul (String c (s ++ t)) = (has_nul (String c s) || has_nul t)%bool).
  cbn [has_nul]. rewrite IH, orb_assoc. reflexivity.
Qed.

Lemma world_refusing_nul_refuses : refuses_nul world_refusing_nul.
Proof. intros argv H. unfold world_refusing_nul, run. rewrite H. reflexivity. Qed.

Lemma world_refusing_nul_fails : pedersen_fails_on_text world_refusing_nul.
Proof.
  intros a b Ha Hb. exists 1, "". split; [| discriminate].
  unfold world_refusing_nul, run.
  assert (E : existsb has_nul (pedersen_argv a b) = false).
  { unfold pedersen_argv. cbn [existsb].
    change (has_nul "starkli") with false. change (has_nul "parse") with false.
    rewrite !has_nul_app, Ha, Hb. reflexivity. }
  rewrite E. reflexivity.
Qed.

Lemma setup_completes_on_fallback_witness :
  refuses_nul world_refusing_nul /\
  pedersen_fails_on_text world_refusing_nul /\
  encodes_everything world_refusing_nul /\
  exists st,
    setup world_refusing_nul four_answers_config initial = (Ok tt, st) /\
    map fst (files st) = ["frontend/config.js"; "scripts/test_recovery.sh"].
Proof.
  assert (Henc : encodes_everything world_refusing_nul)
    by (intro cp; split; reflexivity).
  split; [exact world_refusing_nul_refuses |].
  split; [exact world_refusing_nul_fails |]. split; [exact Henc |].
  refine (setup_completes_on_fallback world_refusing_nul four_answers_config
            1311768467294899695 world_refusing_nul_fails Henc _ _ _ _ _).
  - vm_compute. reflexivity.
  - simpl. lia.
  - intros text Hin. simpl in Hin.
    repeat (destruct Hin as [<- | Hin];
            [eexists; split; vm_compute; reflexivity |]).
    destruct Hin.
  - reflexivity.
  - reflexivity.
Defined.

(** ** A standard output without the check mark *)



